(** * Quick-trace widget (app/components/quickTrace/index.tsx)

    A shallow embedding of the quick-trace navigation widget: the
    [EventNodeSelector] bucket reducer, the [QuickTrace] assembler and the
    [MissingServiceNode] component with its local-storage flag, followed by
    the properties the specification states about them. *)

From Stdlib Require Import QArith.
From stdpp Require Import gmap strings list fin_maps.

Local Open Scope string_scope.
Local Open Scope nat_scope.
Local Open Scope list_scope.

(** ** Exceptions

    A JavaScript [throw] is a value of [Exn]; a computation that may throw
    returns a [Result]. *)

Inductive Exn :=
| ParseError (message : string)   (* thrown by the trace parser *)
| TypeError (message : string).   (* a property of [undefined] is read *)

Inductive Result (A : Type) :=
| Ok (a : A)
| Throw (e : Exn).
Arguments Ok {A} a.
Arguments Throw {A} e.

#[global] Instance Result_ret : MRet Result := fun _ a => Ok a.
#[global] Instance Result_bind : MBind Result := fun _ _ f m =>
  match m with
  | Ok a => f a
  | Throw e => Throw e
  end.

(** [xs[i]] whose result is dereferenced at once: out of range the
    array read gives [undefined] and the dereference throws. *)
Definition index {A} (xs : list A) (i : nat) : Result A :=
  match xs !! i with
  | Some x => Ok x
  | None => Throw (TypeError "Cannot read properties of undefined")
  end.

(** ** Data model *)

(** [TraceError] and [QuickTraceEvent] of
    app/utils/performance/quickTrace/types, with the fields this module
    reads. *)
Record TraceError := {
  te_event_id : string;
  te_project_slug : string;
  te_transaction : string;
}.

(** [current?.missing_service?.child]: only its truthiness is read. *)
Record MissingService := { child : bool }.

Record QuickTraceEvent := {
  qt_event_id : string;
  qt_transaction : string;
  qt_transaction_duration : Z;                  (* event['transaction.duration'], ms *)
  qt_project_slug : string;
  qt_errors : option (list TraceError);         (* errors?: TraceError[] *)
  qt_missing_service : option MissingService;
}.

(** [Event] of app/types/event: the fields read here. *)
Record Event := {
  ev_id : string;
  ev_type : string;
}.

Record OrganizationSummary := {
  org_id : string;
  org_slug : string;
}.

(** [LocationDescriptor] of the history package: a path or an object. *)
Inductive LocationDescriptor :=
| LocPath (path : string)
| LocObject (pathname : string) (query : list (string * string)).

(** JavaScript truthiness of a location descriptor: every object is
    truthy, a string is truthy unless it is empty. *)
Definition truthyLocation (l : LocationDescriptor) : bool :=
  match l with
  | LocPath p => negb (String.eqb p "")
  | LocObject _ _ => true
  end.

Definition truthyOpt {A} (truthy : A -> bool) (o : option A) : bool :=
  match o with
  | Some a => truthy a
  | None => false
  end.

Inductive NodeKey := KRoot | KAncestors | KParent | KCurrent | KChildren | KDescendants.

Definition NodeKey_eqb (a b : NodeKey) : bool :=
  match a, b with
  | KRoot, KRoot | KAncestors, KAncestors | KParent, KParent
  | KCurrent, KCurrent | KChildren, KChildren | KDescendants, KDescendants => true
  | _, _ => false
  end.

Definition TOOLTIP_PREFIX (k : NodeKey) : string :=
  match k with
  | KRoot => "root"
  | KAncestors => "ancestor"
  | KParent => "parent"
  | KCurrent => ""
  | KChildren => "child"
  | KDescendants => "descendant"
  end.

Inductive Anchor := AnchorLeft | AnchorRight.

Definition isRight (a : Anchor) : bool :=
  match a with AnchorRight => true | AnchorLeft => false end.

(** The keys of [Theme['tag']] this module uses. *)
Inductive TagType := TagBlack | TagWhite | TagError | TagWarning.

Inductive SubtextType := SubtextError | SubtextDefault.

(** Messages of app/locale, kept symbolic: the template and what is
    substituted into it. *)
Module Locale.
Inductive Message :=
| t (template : string) (args : list string)
| tn (singular plural : string) (count : nat)
| tct (template : string) (components : list (string * string)).
End Locale.

(** [tct] builds a React element, which is truthy; [t] and [tn] build
    strings, truthy unless empty. *)
Definition truthyMessage (m : Locale.Message) : bool :=
  match m with
  | Locale.t template _ => negb (String.eqb template "")
  | Locale.tn singular plural n =>
      negb (String.eqb (if Nat.eqb n 1 then singular else plural) "")
  | Locale.tct _ _ => true
  end.

(** The parser's result ([ParsedQuickTrace]): [root], [parent] may be
    null, [ancestors] and [descendants] may be null (the source guards them
    with [?.]), [children] and [current] are always there. *)
Record ParsedQuickTrace := {
  root : option QuickTraceEvent;
  ancestors : option (list QuickTraceEvent);
  parent : option QuickTraceEvent;
  children : list QuickTraceEvent;
  descendants : option (list QuickTraceEvent);
  current : QuickTraceEvent;
}.

(** ** External collaborators

    Functions and types this module imports and does not define. *)
Class Collaborators := {
  Location : Type;
  ErrorDestination : Type;
  TransactionDestination : Type;
  QuickTraceType : Type;
  generateSingleErrorTarget :
    TraceError -> OrganizationSummary -> Location -> ErrorDestination -> LocationDescriptor;
  generateSingleTransactionTarget :
    QuickTraceEvent -> OrganizationSummary -> Location -> TransactionDestination
    -> LocationDescriptor;
  generateMultiTransactionsTarget :
    Event -> list QuickTraceEvent -> OrganizationSummary -> string -> LocationDescriptor;
  parseQuickTrace : QuickTraceType -> Event -> Result ParsedQuickTrace;
  getDuration : Q -> nat -> bool -> string;
  toTitleCase : string -> string;
  parseInt : string -> nat -> option Z;          (* None is NaN *)
}.

(** ** Views

    What the components return, as data. Event handlers are closures in
    the source; here each is the record of what it will call. *)

Inductive Handler :=
| OnHandleNode (key : NodeKey) (organization : OrganizationSummary)
| OnHandleDropdownItem (target : LocationDescriptor) (key : NodeKey)
    (organization : OrganizationSummary) (extra : bool)
| OnDismissMissingService (organization : OrganizationSummary).

(** The [text] of a node: plain, or wrapped in [ErrorNodeContent] behind
    the fire icon. *)
Inductive NodeText :=
| PlainText (m : Locale.Message)
| ErrorNodeContent (m : Locale.Message)
| RawText (s : string).

Inductive HoverText :=
| HoverMessage (m : Locale.Message)
| SingleEventHoverText (event : QuickTraceEvent).

(** [TraceError | QuickTraceEvent], the [event] of a dropdown row. *)
Inductive DropdownEvent :=
| OfError (error : TraceError)
| OfTransaction (event : QuickTraceEvent).


Record DropdownNodeProps := {
  dn_event : DropdownEvent;
  dn_onSelect : option Handler;
  dn_first : bool;
  dn_organization : OrganizationSummary;
  dn_subtext : string;
  dn_subtextType : SubtextType;
  dn_anchor : Anchor;
}.

Record EventNodeProps := {
  en_text : NodeText;
  en_hoverText : HoverText;
  en_to : option LocationDescriptor;
  en_onClick : option Handler;
  en_type : TagType;
}.

(** The children of a [DropdownLink]: rows for single events, and the
    plain [DropdownItem] that leads to all events of the bucket. *)
Inductive DropdownChild :=
| DropdownNodeItem (p : DropdownNodeProps)
| DropdownItem (onSelect : Handler) (content : Locale.Message).

(** What [EventNodeSelector] returns. *)
Inductive NodeView :=
| EventNode (type : TagType) (text : NodeText)
| StyledEventNode (p : EventNodeProps)
| DropdownLink (title : EventNodeProps) (anchorRight : bool)
    (children : list DropdownChild).

Section Widget.
Context `{Collaborators}.

Record EventNodeSelectorProps := {
  location : Location;
  organization : OrganizationSummary;
  events : list QuickTraceEvent;
  text : Locale.Message;
  currentEvent : option Event;
  extrasTarget : option LocationDescriptor;
  numEvents : option nat;                       (* a count; 5 when left out *)
  anchor : Anchor;
  nodeKey : NodeKey;
  errorDest : ErrorDestination;
  transactionDest : TransactionDestination;
}.

(** [!currentEvent || currentEvent.id !== error.event_id] *)
Definition keepError (currentEvent : option Event) (error : TraceError) : bool :=
  match currentEvent with
  | None => true
  | Some ce => negb (String.eqb (ev_id ce) (te_event_id error))
  end.

(** [{...error, transaction: e.transaction}] *)
Definition withTransaction (error : TraceError) (transaction : string) : TraceError :=
  {| te_event_id := te_event_id error;
     te_project_slug := te_project_slug error;
     te_transaction := transaction |}.

(** The two nested [forEach] loops that fill [errors] by [push]. *)
Definition hoistErrors (currentEvent : option Event) (events : list QuickTraceEvent)
  : list TraceError :=
  foldl (fun errors e =>
           foldl (fun errors error =>
                    if keepError currentEvent error
                    then errors ++ [withTransaction error (qt_transaction e)]
                    else errors)
                 errors (default [] (qt_errors e)))
        [] events.

(** [currentEvent ? events.filter(e => e.event_id !== currentEvent.id) : events] *)
Definition filterCurrent (currentEvent : option Event) (events : list QuickTraceEvent)
  : list QuickTraceEvent :=
  match currentEvent with
  | Some ce => List.filter (fun e => negb (String.eqb (qt_event_id e) (ev_id ce))) events
  | None => events
  end.

(** [errors.length > 0 || (currentEvent && currentEvent?.type !== 'transaction')] *)
Definition escalates (currentEvent : option Event) (errors : list TraceError) : bool :=
  (0 <? length errors)
  || match currentEvent with
     | Some ce => negb (String.eqb (ev_type ce) "transaction")
     | None => false
     end.

Definition nodeType (nodeKey : NodeKey) (currentEvent : option Event)
    (errors : list TraceError) : TagType :=
  if escalates currentEvent errors
  then (if NodeKey_eqb nodeKey KCurrent then TagError else TagWarning)
  else (if NodeKey_eqb nodeKey KCurrent then TagBlack else TagWhite).

Definition nodeText (text : Locale.Message) (currentEvent : option Event)
    (errors : list TraceError) : NodeText :=
  if escalates currentEvent errors then ErrorNodeContent text else PlainText text.

(** The hover text of the dropdown's title. *)
Definition dropdownHoverText (nodeKey : NodeKey) (errors : list TraceError)
    (events : list QuickTraceEvent) : Locale.Message :=
  Locale.tct "View [eventPrefix] [eventType]"
    [("eventPrefix", TOOLTIP_PREFIX nodeKey);
     ("eventType",
      if (0 <? length errors) && (0 <? length events) then "events"
      else if 0 <? length events then "transactions"
      else "errors")].

(** The row of one hoisted error (the first [map] callback). *)
Definition errorItem (p : EventNodeSelectorProps) (i : nat) (error : TraceError)
  : DropdownChild :=
  let target := generateSingleErrorTarget error (organization p) (location p) (errorDest p) in
  DropdownNodeItem
    {| dn_event := OfError error;
       dn_onSelect := Some (OnHandleDropdownItem target (nodeKey p) (organization p) false);
       dn_first := Nat.eqb i 0;
       dn_organization := organization p;
       dn_subtext := "error";
       dn_subtextType := SubtextError;
       dn_anchor := anchor p |}.

(** The row of one event (the second [map] callback). *)
Definition eventItem (p : EventNodeSelectorProps) (errors : list TraceError)
    (i : nat) (event : QuickTraceEvent) : DropdownChild :=
  let target :=
    generateSingleTransactionTarget event (organization p) (location p) (transactionDest p) in
  let d := qt_transaction_duration event in
  DropdownNodeItem
    {| dn_event := OfTransaction event;
       dn_onSelect := Some (OnHandleDropdownItem target (nodeKey p) (organization p) false);
       dn_first := Nat.eqb i 0 && Nat.eqb (length errors) 0;
       dn_organization := organization p;
       dn_subtext := getDuration (inject_Z d / 1000)%Q (if (d <? 1000)%Z then 0 else 2) true;
       dn_subtextType := SubtextDefault;
       dn_anchor := anchor p |}.

(** [events.length > numEvents && hoverText && extrasTarget && <DropdownItem .../>] *)
Definition extrasItem (p : EventNodeSelectorProps) (numEvents : nat)
    (hoverText : Locale.Message) (events : list QuickTraceEvent) : list DropdownChild :=
  if (numEvents <? length events) && truthyMessage hoverText
     && truthyOpt truthyLocation (extrasTarget p)
  then match extrasTarget p with
       | Some target =>
           [DropdownItem (OnHandleDropdownItem target (nodeKey p) (organization p) true)
              hoverText]
       | None => []
       end
  else [].

Definition EventNodeSelector (p : EventNodeSelectorProps) : Result NodeView :=
  let numEvents := default 5 (numEvents p) in
  let errors := hoistErrors (currentEvent p) (events p) in
  (* Filter out the current event so its not in the dropdown *)
  let events := filterCurrent (currentEvent p) (events p) in
  let type := nodeType (nodeKey p) (currentEvent p) errors in
  let text := nodeText (text p) (currentEvent p) errors in
  if Nat.eqb (length events + length errors) 0 then
    Ok (EventNode type text)
  else if Nat.eqb (length events + length errors) 1 then
    hoverText ←
      (if 0 <? length errors
       then Ok (HoverMessage (Locale.t "View the error for this Transaction" []))
       else event ← index events 0; Ok (SingleEventHoverText event));
    target ←
      (if 0 <? length errors
       then error ← index errors 0;
            Ok (generateSingleErrorTarget error (organization p) (location p) (errorDest p))
       else event ← index events 0;
            Ok (generateSingleTransactionTarget event (organization p) (location p)
                  (transactionDest p)));
    Ok (StyledEventNode
          {| en_text := text;
             en_hoverText := hoverText;
             en_to := Some target;
             en_onClick := Some (OnHandleNode (nodeKey p) (organization p));
             en_type := type |})
  else
    let hoverText := dropdownHoverText (nodeKey p) errors events in
    Ok (DropdownLink
          {| en_text := text;
             en_hoverText := HoverMessage hoverText;
             en_to := None;
             en_onClick := None;
             en_type := type |}
          (isRight (anchor p))
          (imap (errorItem p) (take numEvents errors)
           ++ imap (eventItem p errors) (take numEvents events)
           ++ extrasItem p numEvents hoverText events)).

(** *** The assembler *)

Record QuickTraceProps := {
  qp_event : Event;
  qp_quickTrace : QuickTraceType;
  qp_location : Location;
  qp_organization : OrganizationSummary;
  qp_anchor : Anchor;
  qp_errorDest : ErrorDestination;
  qp_transactionDest : TransactionDestination;
}.

(** The elements [QuickTrace] pushes onto [nodes]. *)
Inductive TraceNode :=
| EventNodeSelectorElt (key : string) (props : EventNodeSelectorProps)
| TraceConnector (key : string)
| MissingServiceNodeElt (anchor : Anchor) (organization : OrganizationSummary).

Inductive QuickTraceView :=
| Fragment (text : string)
| QuickTraceContainer (nodes : list TraceNode).

(** The props every [<EventNodeSelector>] of [QuickTrace] shares;
    [numEvents] is never passed. *)
Definition selectorProps (q : QuickTraceProps) (nodeKey : NodeKey)
    (events : list QuickTraceEvent) (text : Locale.Message)
    (currentEvent : option Event) (extrasTarget : option LocationDescriptor)
  : EventNodeSelectorProps :=
  {| location := qp_location q;
     organization := qp_organization q;
     events := events;
     text := text;
     currentEvent := currentEvent;
     extrasTarget := extrasTarget;
     numEvents := None;
     anchor := qp_anchor q;
     nodeKey := nodeKey;
     errorDest := qp_errorDest q;
     transactionDest := qp_transactionDest q |}.

(** [xs?.length] read as a condition. *)
Definition truthyLength {A} (xs : option (list A)) : bool :=
  match xs with
  | Some l => 0 <? length l
  | None => false
  end.

(** [current?.missing_service?.child] read as a condition. *)
Definition missingChild (current : QuickTraceEvent) : bool :=
  match qt_missing_service current with
  | Some m => child m
  | None => false
  end.

(** The body of [QuickTrace] after the parse: the [nodes] array, push
    by push. *)
Definition buildNodes (q : QuickTraceProps) (parsedQuickTrace : ParsedQuickTrace)
  : list TraceNode :=
  let event := qp_event q in
  let organization := qp_organization q in
  let nodes := [] in
  let nodes :=
    match root parsedQuickTrace with
    | Some root =>
        nodes
        ++ [EventNodeSelectorElt "root-node"
              (selectorProps q KRoot [root] (Locale.t "Root" []) None None)]
        ++ [TraceConnector "root-connector"]
    | None => nodes
    end in
  let nodes :=
    if truthyLength (ancestors parsedQuickTrace) then
      let ancestors := default [] (ancestors parsedQuickTrace) in
      nodes
      ++ [EventNodeSelectorElt "ancestors-node"
            (selectorProps q KAncestors ancestors
               (Locale.tn "%s Ancestor" "%s Ancestors" (length ancestors)) None
               (Some (generateMultiTransactionsTarget event ancestors organization
                        "Ancestor")))]
      ++ [TraceConnector "ancestors-connector"]
    else nodes in
  let nodes :=
    match parent parsedQuickTrace with
    | Some parent =>
        nodes
        ++ [EventNodeSelectorElt "parent-node"
              (selectorProps q KParent [parent] (Locale.t "Parent" []) None None)]
        ++ [TraceConnector "parent-connector"]
    | None => nodes
    end in
  let nodes :=
    nodes
    ++ [EventNodeSelectorElt "current-node"
          (selectorProps q KCurrent [current parsedQuickTrace]
             (Locale.t "This %s" [toTitleCase (ev_type event)]) (Some event) None)] in
  let nodes :=
    if missingChild (current parsedQuickTrace)
    then nodes ++ [MissingServiceNodeElt (qp_anchor q) organization]
    else nodes in
  let nodes :=
    if 0 <? length (children parsedQuickTrace) then
      let children := children parsedQuickTrace in
      nodes
      ++ [TraceConnector "children-connector"]
      ++ [EventNodeSelectorElt "children-node"
            (selectorProps q KChildren children
               (Locale.tn "%s Child" "%s Children" (length children)) None
               (Some (generateMultiTransactionsTarget event children organization
                        "Children")))]
    else nodes in
  let nodes :=
    if truthyLength (descendants parsedQuickTrace) then
      let descendants := default [] (descendants parsedQuickTrace) in
      nodes
      ++ [TraceConnector "descendants-connector"]
      ++ [EventNodeSelectorElt "descendants-node"
            (selectorProps q KDescendants descendants
               (Locale.tn "%s Descendant" "%s Descendants" (length descendants)) None
               (Some (generateMultiTransactionsTarget event descendants organization
                        "Descendant")))]
    else nodes in
  nodes.

(** [try { parsedQuickTrace = parseQuickTrace(...) } catch (error) { return "—" }],
    then the nodes in their container. *)
Definition QuickTrace (q : QuickTraceProps) : Result QuickTraceView :=
  match parseQuickTrace (qp_quickTrace q) (qp_event q) with
  | Throw _ => Ok (Fragment "—")
  | Ok parsedQuickTrace => Ok (QuickTraceContainer (buildNodes q parsedQuickTrace))
  end.

(** *** Effects: analytics, history and local storage *)

Record AnalyticsEvent := {
  eventKey : string;
  eventName : string;
  organization_id : option Z;
  node_key : option NodeKey;
}.

(** What the handlers write to. [localStorage] maps keys to values;
    [getItem] of an absent key is [null], here [None]. *)
Record World := {
  localStorage : gmap string string;
  analytics : list AnalyticsEvent;
  browserHistory : list LocationDescriptor;
}.

Definition trackAnalyticsEvent (e : AnalyticsEvent) (w : World) : World :=
  {| localStorage := localStorage w;
     analytics := analytics w ++ [e];
     browserHistory := browserHistory w |}.

Definition handleNode (key : NodeKey) (organization : OrganizationSummary)
    (w : World) : World :=
  trackAnalyticsEvent
    {| eventKey := "quick_trace.node.clicked";
       eventName := "Quick Trace: Node clicked";
       organization_id := parseInt (org_id organization) 10;
       node_key := Some key |} w.

Definition handleDropdownItem (target : LocationDescriptor) (key : NodeKey)
    (organization : OrganizationSummary) (extra : bool) (w : World) : World :=
  let w :=
    trackAnalyticsEvent
      {| eventKey := String.append "quick_trace.dropdown.clicked" (if extra then "_extra" else "");
         eventName := "Quick Trace: Dropdown clicked";
         organization_id := parseInt (org_id organization) 10;
         node_key := Some key |} w in
  {| localStorage := localStorage w;
     analytics := analytics w;
     browserHistory := browserHistory w ++ [target] |}.

(** *** The missing-service placeholder *)

Definition HIDE_MISSING_SERVICE_KEY : string := "quick-trace:hide-missing-services".

Definition readMissingServiceState (w : World) : bool :=
  match localStorage w !! HIDE_MISSING_SERVICE_KEY with
  | Some value => String.eqb value "1"
  | None => false
  end.

Record MissingServiceState := { hideMissing : bool }.

Inductive MissingItem :=
| ConnectLink (href : string) (label : string)
| DismissItem (onSelect : Handler) (label : string).

(** What is on the page once every element is rendered. *)
Inductive Rendered :=
| RNode (v : NodeView)
| RConnector
| RMissingDropdown (title : NodeView) (anchorRight : bool) (items : list MissingItem).

(** The class [MissingServiceNode]: its state initialiser, its handler
    and its [render]. *)
Definition MissingServiceNode_state (w : World) : MissingServiceState :=
  {| hideMissing := readMissingServiceState w |}.

Definition dismissMissingService (organization : OrganizationSummary)
    (c : World * MissingServiceState) : World * MissingServiceState :=
  let w := c.1 in
  let w :=
    {| localStorage := <[HIDE_MISSING_SERVICE_KEY := "1"]> (localStorage w);
       analytics := analytics w;
       browserHistory := browserHistory w |} in
  let st := {| hideMissing := true |} in
  let w :=
    trackAnalyticsEvent
      {| eventKey := "quick_trace.hide.missing-service";
         eventName := "Quick Trace: Missing Service Clicked";
         organization_id := parseInt (org_id organization) 10;
         node_key := None |} w in
  (w, st).

Definition MissingServiceNode_render (anchor : Anchor) (organization : OrganizationSummary)
    (st : MissingServiceState) : list Rendered :=
  if hideMissing st then []
  else [RConnector;
        RMissingDropdown (EventNode TagWhite (RawText "???")) (isRight anchor)
          [ConnectLink
             "https://docs.sentry.io/platforms/javascript/performance/connect-services/"
             "Connect to a service";
           DismissItem (OnDismissMissingService organization) "Dismiss"]].

(** *** Rendering and interaction *)

(** One element rendered; a [MissingServiceNode] is rendered in the
    state [st] of its instance. *)
Definition renderNode (st : MissingServiceState) (n : TraceNode) : Result (list Rendered) :=
  match n with
  | EventNodeSelectorElt _ props => v ← EventNodeSelector props; Ok [RNode v]
  | TraceConnector _ => Ok [RConnector]
  | MissingServiceNodeElt anchor organization =>
      Ok (MissingServiceNode_render anchor organization st)
  end.

Definition renderNodes (st : MissingServiceState) (nodes : list TraceNode)
  : Result (list Rendered) :=
  rs ← mapM (renderNode st) nodes; Ok (concat rs).

(** What running a handler does to the world and to the state of the
    [MissingServiceNode] instance. *)
Definition runHandler (h : Handler) (c : World * MissingServiceState)
  : World * MissingServiceState :=
  match h with
  | OnHandleNode key organization => (handleNode key organization c.1, c.2)
  | OnHandleDropdownItem target key organization extra =>
      (handleDropdownItem target key organization extra c.1, c.2)
  | OnDismissMissingService organization =>
      dismissMissingService organization c
  end.

(** What can happen to a mounted widget: the user selects something
    (a handler runs), or the component is constructed anew and reads its
    state from local storage again. *)
Inductive step : World * MissingServiceState -> World * MissingServiceState -> Prop :=
| step_handler h c : step c (runHandler h c)
| step_construct w st : step (w, st) (w, MissingServiceNode_state w).

(** The configurations a widget constructed in world [w0] can reach. *)
Inductive reachable (w0 : World) : World * MissingServiceState -> Prop :=
| reachable_init : reachable w0 (w0, MissingServiceNode_state w0)
| reachable_step c c' : reachable w0 c -> step c c' -> reachable w0 c'.

End Widget.

(** ** The specification's vocabulary *)

Section Vocabulary.
Context `{Collaborators}.

(** The bucket as the reducer sees it: its hoisted errors, its events
    without the current one, and how many items that makes. *)
Definition bucketErrors (p : EventNodeSelectorProps) : list TraceError :=
  hoistErrors (currentEvent p) (events p).

Definition bucketEvents (p : EventNodeSelectorProps) : list QuickTraceEvent :=
  filterCurrent (currentEvent p) (events p).

Definition combinedCount (p : EventNodeSelectorProps) : nat :=
  length (bucketEvents p) + length (bucketErrors p).

Definition cap (p : EventNodeSelectorProps) : nat := default 5 (numEvents p).

(** The rows of a dropdown that stand for one error or one event, in
    the order they are listed, and the aggregate items among them. *)
Definition rowEvents (children : list DropdownChild) : list DropdownEvent :=
  omap (fun c => match c with
                 | DropdownNodeItem r => Some (dn_event r)
                 | DropdownItem _ _ => None
                 end) children.

Definition overflowItems (children : list DropdownChild) : list DropdownChild :=
  List.filter (fun c => match c with
                        | DropdownItem _ _ => true
                        | DropdownNodeItem _ => false
                        end) children.

(** The title of the dropdown [EventNodeSelector] builds. *)
Definition dropdownTitle (p : EventNodeSelectorProps) : EventNodeProps :=
  {| en_text := nodeText (text p) (currentEvent p) (bucketErrors p);
     en_hoverText :=
       HoverMessage (dropdownHoverText (nodeKey p) (bucketErrors p) (bucketEvents p));
     en_to := None;
     en_onClick := None;
     en_type := nodeType (nodeKey p) (currentEvent p) (bucketErrors p) |}.

(** The aggregate item of a bucket whose extras target is [target]. *)
Definition overflowItem (p : EventNodeSelectorProps) (target : LocationDescriptor)
  : DropdownChild :=
  DropdownItem (OnHandleDropdownItem target (nodeKey p) (organization p) true)
    (dropdownHoverText (nodeKey p) (bucketErrors p) (bucketEvents p)).

(** The single link to an error, and the single link to an event. *)
Definition singleErrorLink (p : EventNodeSelectorProps) (error : TraceError) : NodeView :=
  StyledEventNode
    {| en_text := nodeText (text p) (currentEvent p) (bucketErrors p);
       en_hoverText := HoverMessage (Locale.t "View the error for this Transaction" []);
       en_to := Some (generateSingleErrorTarget error (organization p) (location p)
                        (errorDest p));
       en_onClick := Some (OnHandleNode (nodeKey p) (organization p));
       en_type := nodeType (nodeKey p) (currentEvent p) (bucketErrors p) |}.

Definition singleTransactionLink (p : EventNodeSelectorProps) (event : QuickTraceEvent)
  : NodeView :=
  StyledEventNode
    {| en_text := nodeText (text p) (currentEvent p) (bucketErrors p);
       en_hoverText := SingleEventHoverText event;
       en_to := Some (generateSingleTransactionTarget event (organization p) (location p)
                        (transactionDest p));
       en_onClick := Some (OnHandleNode (nodeKey p) (organization p));
       en_type := nodeType (nodeKey p) (currentEvent p) (bucketErrors p) |}.

(** Whether the current event supplied to the node, if any, is something
    other than a transaction. *)
Definition currentIsNotTransaction (p : EventNodeSelectorProps) : bool :=
  match currentEvent p with
  | Some ce => negb (String.eqb (ev_type ce) "transaction")
  | None => false
  end.

(** What the errors of one event contribute to the hoisted list. *)
Definition hoistedOf (currentEvent : option Event) (e : QuickTraceEvent) : list TraceError :=
  map (fun error => withTransaction error (qt_transaction e))
      (List.filter (keepError currentEvent) (default [] (qt_errors e))).

(** The children of the dropdown [EventNodeSelector] builds: error
    rows, event rows, and the aggregate item if any. *)
Definition dropdownChildren (p : EventNodeSelectorProps) : list DropdownChild :=
  imap (errorItem p) (take (cap p) (bucketErrors p))
  ++ imap (eventItem p (bucketErrors p)) (take (cap p) (bucketEvents p))
  ++ extrasItem p (cap p)
       (dropdownHoverText (nodeKey p) (bucketErrors p) (bucketEvents p))
       (bucketEvents p).

(** The view [v] of bucket [p] puts the error, or the event, before
    the user: as a row of the dropdown, or as the one item a single
    link leads to. *)
Definition showsError (p : EventNodeSelectorProps) (v : NodeView) (error : TraceError)
  : Prop :=
  match v with
  | EventNode _ _ => False
  | StyledEventNode _ => bucketErrors p = [error] /\ v = singleErrorLink p error
  | DropdownLink _ _ children => OfError error ∈ rowEvents children
  end.


(** *** The assembler in the specification's words

    The buckets of a parsed trace, what each is rendered from, and the
    sequence the specification prescribes: an optional bucket contributes
    its node and a connector unless its combined count is zero, the current
    slot always contributes its node. *)

Definition keyName (k : NodeKey) : string :=
  match k with
  | KRoot => "root"
  | KAncestors => "ancestors"
  | KParent => "parent"
  | KCurrent => "current"
  | KChildren => "children"
  | KDescendants => "descendants"
  end.

Definition bucketOf (parsed : ParsedQuickTrace) (k : NodeKey) : list QuickTraceEvent :=
  match k with
  | KRoot => option_list (root parsed)
  | KAncestors => default [] (ancestors parsed)
  | KParent => option_list (parent parsed)
  | KCurrent => [current parsed]
  | KChildren => children parsed
  | KDescendants => default [] (descendants parsed)
  end.

Definition bucketProps (q : QuickTraceProps) (parsed : ParsedQuickTrace) (k : NodeKey)
  : EventNodeSelectorProps :=
  let evs := bucketOf parsed k in
  let all label :=
    Some (generateMultiTransactionsTarget (qp_event q) evs (qp_organization q) label) in
  match k with
  | KRoot => selectorProps q k evs (Locale.t "Root" []) None None
  | KAncestors =>
      selectorProps q k evs (Locale.tn "%s Ancestor" "%s Ancestors" (length evs)) None
        (all "Ancestor")
  | KParent => selectorProps q k evs (Locale.t "Parent" []) None None
  | KCurrent =>
      selectorProps q k evs (Locale.t "This %s" [toTitleCase (ev_type (qp_event q))])
        (Some (qp_event q)) None
  | KChildren =>
      selectorProps q k evs (Locale.tn "%s Child" "%s Children" (length evs)) None
        (all "Children")
  | KDescendants =>
      selectorProps q k evs (Locale.tn "%s Descendant" "%s Descendants" (length evs)) None
        (all "Descendant")
  end.

Definition bucketNode (q : QuickTraceProps) (parsed : ParsedQuickTrace) (k : NodeKey)
  : TraceNode :=
  EventNodeSelectorElt (String.append (keyName k) "-node") (bucketProps q parsed k).

Definition bucketConnector (k : NodeKey) : TraceNode :=
  TraceConnector (String.append (keyName k) "-connector").

Definition bucketIsEmpty (q : QuickTraceProps) (parsed : ParsedQuickTrace) (k : NodeKey)
  : bool :=
  Nat.eqb (combinedCount (bucketProps q parsed k)) 0.

(** A bucket ahead of the current slot: node, then connector. *)
Definition leading (q : QuickTraceProps) (parsed : ParsedQuickTrace) (k : NodeKey)
  : list TraceNode :=
  if bucketIsEmpty q parsed k then [] else [bucketNode q parsed k; bucketConnector k].

(** A bucket behind the current slot: connector, then node. *)
Definition trailing (q : QuickTraceProps) (parsed : ParsedQuickTrace) (k : NodeKey)
  : list TraceNode :=
  if bucketIsEmpty q parsed k then [] else [bucketConnector k; bucketNode q parsed k].

Definition placeholder (q : QuickTraceProps) (parsed : ParsedQuickTrace) : list TraceNode :=
  if missingChild (current parsed)
  then [MissingServiceNodeElt (qp_anchor q) (qp_organization q)]
  else [].

Definition assembleTrace (q : QuickTraceProps) (parsed : ParsedQuickTrace)
  : list TraceNode :=
  leading q parsed KRoot ++ leading q parsed KAncestors ++ leading q parsed KParent
  ++ [bucketNode q parsed KCurrent]
  ++ placeholder q parsed
  ++ trailing q parsed KChildren ++ trailing q parsed KDescendants.

(** How a node reads in a sequence: its React key, or what it is. *)
Definition nodeLabel (n : TraceNode) : string :=
  match n with
  | EventNodeSelectorElt key _ => key
  | TraceConnector key => key
  | MissingServiceNodeElt _ _ => "missing-service"
  end.

(** The persisted flag says hidden. *)
Definition flagSet (w : World) : Prop :=
  localStorage w !! HIDE_MISSING_SERVICE_KEY = Some "1".

(** A hidden instance has the flag behind it. *)
Definition consistent (c : World * MissingServiceState) : Prop :=
  hideMissing c.2 = true -> flagSet c.1.

Definition isMissingDropdown (r : Rendered) : bool :=
  match r with
  | RMissingDropdown _ _ _ => true
  | _ => false
  end.

End Vocabulary.

(** ** The dropdown row and the observations on views *)

(** [Project] of app/types: the fields read here. *)
Record Project := {
  project_slug : string;
  project_id : string;
}.

(** What [ProjectBadge] is given: a project of the list, or the bare
    [{slug: event.project_slug}]. *)
Inductive AvatarProject :=
| FullProject (project : Project)
| SlugOnly (slug : string).

Definition avatarSlug (a : AvatarProject) : string :=
  match a with
  | FullProject project => project_slug project
  | SlugOnly slug => slug
  end.

(** [event.project_slug] and [event.transaction] of a row's event. *)
Definition itemProjectSlug (e : DropdownEvent) : string :=
  match e with
  | OfError error => te_project_slug error
  | OfTransaction event => qt_project_slug event
  end.

Definition itemTransaction (e : DropdownEvent) : string :=
  match e with
  | OfError error => te_transaction error
  | OfTransaction event => qt_transaction event
  end.

(** What [DropdownNodeItem] renders: the [DropdownItem] with its
    project badge (a render prop of [Projects], here a function of the
    projects it is called with), the truncated transaction name and the
    subtext. *)
Record DropdownItemView := {
  di_onSelect : option Handler;
  di_first : bool;
  di_orgId : string;
  di_slugs : list string;
  di_badge : list Project -> AvatarProject;
  di_hideName : bool;
  di_avatarSize : nat;
  di_value : string;
  di_expandDirection : Anchor;
  di_maxLength : nat;
  di_leftTrim : bool;
  di_trimRegex : string;
  di_subtextType : SubtextType;
  di_subtext : string;
}.

Definition DropdownNodeItem_render (props : DropdownNodeProps) : DropdownItemView :=
  let event := dn_event props in
  {| di_onSelect := dn_onSelect props;
     di_first := dn_first props;
     di_orgId := org_slug (dn_organization props);
     di_slugs := [itemProjectSlug event];
     di_badge := fun projects =>
       let project :=
         List.find (fun p => String.eqb (project_slug p) (itemProjectSlug event)) projects in
       match project with
       | Some project => FullProject project
       | None => SlugOnly (itemProjectSlug event)
       end;
     di_hideName := true;
     di_avatarSize := 16;
     di_value := itemTransaction event;
     (* expand in the opposite direction of the anchor *)
     di_expandDirection :=
       match dn_anchor props with AnchorLeft => AnchorRight | AnchorRight => AnchorLeft end;
     di_maxLength := 35;
     di_leftTrim := true;
     di_trimRegex := "\.|\/";
     di_subtextType := dn_subtextType props;
     di_subtext := dn_subtext props |}.

(** The props of the rows of a dropdown, in order. *)
Definition rowProps (children : list DropdownChild) : list DropdownNodeProps :=
  omap (fun c => match c with
                 | DropdownNodeItem r => Some r
                 | DropdownItem _ _ => None
                 end) children.

(** The [type] and the [text] a view is rendered with. *)
Definition viewType (v : NodeView) : TagType :=
  match v with
  | EventNode type _ => type
  | StyledEventNode p => en_type p
  | DropdownLink title _ _ => en_type title
  end.

Definition viewText (v : NodeView) : NodeText :=
  match v with
  | EventNode _ text => text
  | StyledEventNode p => en_text p
  | DropdownLink title _ _ => en_text title
  end.




Definition isConnector (r : Rendered) : bool :=
  match r with
  | RConnector => true
  | _ => false
  end.

(** Nodes and connectors take turns: [alternates true] reads a
    sequence that starts and ends with a node. *)
Fixpoint alternates (expectNode : bool) (connectors : list bool) : bool :=
  match connectors with
  | [] => negb expectNode
  | c :: connectors =>
      if expectNode
      then negb c && alternates false connectors
      else c && alternates true connectors
  end.

(** The React key of an element, if it was given one. *)
Definition reactKey {C : Collaborators} (n : TraceNode) : option string :=
  match n with
  | EventNodeSelectorElt key _ => Some key
  | TraceConnector key => Some key
  | MissingServiceNodeElt _ _ => None
  end.

(** Which of the things an element renders are connectors, for a
    placeholder in state [st]. *)
Definition connectorsOf {C : Collaborators} (st : MissingServiceState) (n : TraceNode)
  : list bool :=
  match n with
  | EventNodeSelectorElt _ _ => [false]
  | TraceConnector _ => [true]
  | MissingServiceNodeElt _ _ => if hideMissing st then [] else [true; false]
  end.

(** Where selecting the row of [e] leads. *)
Definition itemTarget {C : Collaborators} (p : EventNodeSelectorProps) (e : DropdownEvent)
  : LocationDescriptor :=
  match e with
  | OfError error =>
      generateSingleErrorTarget error (organization p) (location p) (errorDest p)
  | OfTransaction event =>
      generateSingleTransactionTarget event (organization p) (location p) (transactionDest p)
  end.

(** The analytics event of a click in a dropdown, and of a click on a
    node. *)
Definition dropdownClicked {C : Collaborators} (key : NodeKey)
    (organization : OrganizationSummary) (extra : bool) : AnalyticsEvent :=
  {| eventKey := if extra then "quick_trace.dropdown.clicked_extra"
                 else "quick_trace.dropdown.clicked";
     eventName := "Quick Trace: Dropdown clicked";
     organization_id := parseInt (org_id organization) 10;
     node_key := Some key |}.

Definition nodeClicked {C : Collaborators} (key : NodeKey)
    (organization : OrganizationSummary) : AnalyticsEvent :=
  {| eventKey := "quick_trace.node.clicked";
     eventName := "Quick Trace: Node clicked";
     organization_id := parseInt (org_id organization) 10;
     node_key := Some key |}.

(** The world after something outside the widget rewrote local
    storage. *)
Definition withStorage (w : World) (storage : gmap string string) : World :=
  {| localStorage := storage;
     analytics := analytics w;
     browserHistory := browserHistory w |}.

(** How many errors the events of a bucket carry. *)
Definition errorCount (events : list QuickTraceEvent) : nat :=
  sum_list (map (fun e => length (default [] (qt_errors e))) events).

(** ** The artifact row (SourceMapsArtifactRow)

    The enum [ArtifactType] of app/types is not defined in this file;
    its two members and the truthiness of a member are taken as given. *)
Class ArtifactTypes := {
  ArtifactType : Type;
  #[global] ArtifactType_eq_dec :: EqDecision ArtifactType;
  INDIVIDUAL : ArtifactType;
  ARCHIVED : ArtifactType;
  truthyType : ArtifactType -> bool;
}.

Section ArtifactRow.
Context `{ArtifactTypes}.

Record Artifact := {
  art_name : string;
  art_size : N;
  art_dateCreated : string;
  art_id : string;
  art_dist : option string;                     (* string | null *)
  art_type : option ArtifactType;
}.

Record ArtifactRowProps := {
  artifact : Artifact;
  downloadUrl : string;
  downloadRole : string;
}.

(** [name || `(${t('empty')})`] *)
Inductive NameText :=
| NameGiven (name : string)
| NameEmpty.

(** [dist ?? t('none')] *)
Inductive DistText :=
| DistGiven (dist : string)
| DistNone.

Record DistTag := {
  dt_type : option string;
  dt_tooltipText : option Locale.Message;
  dt_text : DistText;
}.

Record TypeTag := {
  tt_tooltipText : option Locale.Message;
  tt_text : ArtifactType;
}.

Record ActionButton := {
  ab_title : Locale.Message;
  ab_disabled : bool;
}.

(** What the row shows; the two buttons are render props of [Role] and
    [Access], here functions of [hasRole] and [hasAccess]. *)
Record ArtifactRowView := {
  rv_name : NameText;
  rv_date : string;
  rv_dist : DistTag;
  rv_type : option TypeTag;
  rv_bytes : N;
  rv_role : string;
  rv_downloadHref : string;
  rv_download : bool -> ActionButton;
  rv_delete : bool -> ActionButton;
  rv_onConfirm : string;                        (* the id [onDelete] is called with *)
}.

Definition getTypeTooltip (tooltipType : ArtifactType) : option Locale.Message :=
  if decide (tooltipType = INDIVIDUAL) then
    Some (Locale.t "This artifact has been uploaded individually." [])
  else if decide (tooltipType = ARCHIVED) then
    Some (Locale.t "This artifact is part of a zip archive." [])
  else None.

(** [type !== ArtifactType.INDIVIDUAL], [type] possibly undefined. *)
Definition notIndividual (type : option ArtifactType) : bool :=
  match type with
  | Some type => negb (bool_decide (type = INDIVIDUAL))
  | None => true
  end.

Definition SourceMapsArtifactRow (props : ArtifactRowProps) : ArtifactRowView :=
  let name := art_name (artifact props) in
  let dist := art_dist (artifact props) in
  let type := art_type (artifact props) in
  let distTruthy := truthyOpt (fun d => negb (String.eqb d "")) dist in
  {| rv_name := if String.eqb name "" then NameEmpty else NameGiven name;
     rv_date := art_dateCreated (artifact props);
     rv_dist :=
       {| dt_type := if distTruthy then Some "info" else None;
          dt_tooltipText :=
            if distTruthy then None else Some (Locale.t "No distribution set" []);
          dt_text := match dist with Some d => DistGiven d | None => DistNone end |};
     rv_type :=
       match type with
       | Some type =>
           if truthyType type
           then Some {| tt_tooltipText := getTypeTooltip type; tt_text := type |}
           else None
       | None => None
       end;
     rv_bytes := art_size (artifact props);
     rv_role := downloadRole props;
     rv_downloadHref := downloadUrl props;
     rv_download := fun hasRole =>
       {| ab_title :=
            if negb hasRole
            then Locale.t "You do not have permission to download artifacts." []
            else if notIndividual type
            then Locale.t
                   "This artifact is part of an archive. Only individual artifacts can be downloaded one by one."
                   []
            else Locale.t "Download Artifact" [];
          ab_disabled := negb hasRole || notIndividual type |};
     rv_delete := fun hasAccess =>
       {| ab_title :=
            if negb hasAccess
            then Locale.t "You do not have permission to delete artifacts." []
            else if notIndividual type
            then Locale.t
                   "This artifact is part of an archive. Only individual artifacts can be removed one by one."
                   []
            else Locale.t "Remove Artifact" [];
          ab_disabled := negb hasAccess || notIndividual type |};
     rv_onConfirm := art_id (artifact props) |}.

End ArtifactRow.

(** ** Sample collaborators and inputs

    Concrete resolvers, a parser that reads a ready-made result, and the
    inputs the examples below run on. *)

Definition sampleCollaborators : Collaborators :=
  {| Location := string;
     ErrorDestination := string;
     TransactionDestination := string;
     QuickTraceType := option ParsedQuickTrace;
     generateSingleErrorTarget := fun error organization _ dest =>
       LocObject (String.append "/organizations/" (org_slug organization))
         [("dest", dest); ("error", te_event_id error)];
     generateSingleTransactionTarget := fun event organization _ dest =>
       LocObject (String.append "/organizations/" (org_slug organization))
         [("dest", dest); ("transaction", qt_event_id event)];
     generateMultiTransactionsTarget := fun event events organization label =>
       LocObject (String.append "/organizations/" (org_slug organization))
         [("label", label); ("current", ev_id event)];
     parseQuickTrace := fun quickTrace _ =>
       match quickTrace with
       | Some parsed => Ok parsed
       | None => Throw (ParseError "Current trace is empty")
       end;
     getDuration := fun seconds _ _ =>
       if Qle_bool 1 seconds then "1s or more" else "under 1s";
     toTitleCase := fun s => s;
     parseInt := fun s _ => if String.eqb s "1" then Some 1%Z else None |}.

Module Sample.

Definition org : OrganizationSummary := {| org_id := "1"; org_slug := "acme" |}.

Definition err (id : string) : TraceError :=
  {| te_event_id := id; te_project_slug := "backend"; te_transaction := "" |}.

Definition txn (id : string) (errors : option (list TraceError)) : QuickTraceEvent :=
  {| qt_event_id := id;
     qt_transaction := String.append "/api/" id;
     qt_transaction_duration := 1500;
     qt_project_slug := "backend";
     qt_errors := errors;
     qt_missing_service := None |}.

Definition flagged (e : QuickTraceEvent) : QuickTraceEvent :=
  {| qt_event_id := qt_event_id e;
     qt_transaction := qt_transaction e;
     qt_transaction_duration := qt_transaction_duration e;
     qt_project_slug := qt_project_slug e;
     qt_errors := qt_errors e;
     qt_missing_service := Some {| child := true |} |}.

Definition transactionEvent (id : string) : Event :=
  {| ev_id := id; ev_type := "transaction" |}.

Definition errorEvent (id : string) : Event :=
  {| ev_id := id; ev_type := "error" |}.

(** Props of an [EventNodeSelector] for the bucket [events]. *)
Definition props (nodeKey : NodeKey) (events : list QuickTraceEvent)
    (currentEvent : option Event) (extrasTarget : option LocationDescriptor)
    (numEvents : option nat) : @EventNodeSelectorProps sampleCollaborators :=
  {| location := "/performance/" : @Location sampleCollaborators;
     organization := org;
     events := events;
     text := Locale.t "Bucket" [];
     currentEvent := currentEvent;
     extrasTarget := extrasTarget;
     numEvents := numEvents;
     anchor := AnchorLeft;
     nodeKey := nodeKey;
     errorDest := "issue" : @ErrorDestination sampleCollaborators;
     transactionDest := "performance" : @TransactionDestination sampleCollaborators |}.

Definition seven : list QuickTraceEvent :=
  [txn "a1" None; txn "a2" None; txn "a3" None; txn "a4" None;
   txn "a5" None; txn "a6" None; txn "a7" None].

Definition allTarget : LocationDescriptor :=
  LocObject "/organizations/acme/discover/results/" [("name", "Ancestor")].

(** Two events with interleaved errors: three errors, two events. *)
Definition mixed : list QuickTraceEvent :=
  [txn "b1" (Some [err "x1"; err "x2"]); txn "b2" (Some [err "x3"])].

Definition quickTraceProps (quickTrace : option ParsedQuickTrace) (event : Event)
  : @QuickTraceProps sampleCollaborators :=
  {| qp_event := event;
     qp_quickTrace := quickTrace : @QuickTraceType sampleCollaborators;
     qp_location := "/performance/" : @Location sampleCollaborators;
     qp_organization := org;
     qp_anchor := AnchorLeft;
     qp_errorDest := "issue" : @ErrorDestination sampleCollaborators;
     qp_transactionDest := "performance" : @TransactionDestination sampleCollaborators |}.

(** A trace with a root, a parent and two children, and neither
    ancestors nor descendants. *)
Definition trace (current : QuickTraceEvent) : ParsedQuickTrace :=
  {| root := Some (txn "r" None);
     ancestors := Some [];
     parent := Some (txn "p" None);
     children := [txn "c1" None; txn "c2" None];
     descendants := None;
     current := current |}.

Definition emptyWorld : World :=
  {| localStorage := ∅; analytics := []; browserHistory := [] |}.

(** Seven ancestors and no error, with and without an extras target. *)
Definition sevenWithTarget := props KAncestors seven None (Some allTarget) None.
Definition sevenWithoutTarget := props KAncestors seven None None None.

(** Three errors and two events under the default cap. *)
Definition mixedBucket := props KAncestors mixed None (Some allTarget) None.

(** A root whose seven errors exceed the cap. *)
Definition rootWithErrors :=
  props KRoot
    [txn "r" (Some [err "x1"; err "x2"; err "x3"; err "x4"; err "x5"; err "x6"; err "x7"])]
    None None None.

(** A bucket holding a copy of the current event ["cur"], one of
    whose two errors is the current event as well. *)
Definition copyOfCurrent : QuickTraceEvent := txn "cur" (Some [err "x1"; err "cur"]).
Definition withCopy :=
  props KCurrent [copyOfCurrent; txn "b2" None] (Some (transactionEvent "cur")) None None.

(** The current slot of a transaction, and of an error event whose
    identifier the bucket's only event shares. *)
Definition currentTransaction :=
  props KCurrent [txn "cur" None] (Some (transactionEvent "cur")) None None.
Definition currentError :=
  props KCurrent [txn "e1" None] (Some (errorEvent "e1")) None None.

Definition parentOnly := props KParent [txn "p" None] None None None.

Definition plainTrace : ParsedQuickTrace := trace (txn "cur" None).
Definition flaggedTrace : ParsedQuickTrace := trace (flagged (txn "cur" None)).
Definition plainQuickTrace := quickTraceProps (Some plainTrace) (transactionEvent "cur").
Definition flaggedQuickTrace := quickTraceProps (Some flaggedTrace) (transactionEvent "cur").
Definition brokenQuickTrace := quickTraceProps None (transactionEvent "cur").

End Sample.

Module Traces.


(** A trace whose seven children carry seven errors. *)
Definition crowded : ParsedQuickTrace :=
  {| root := None;
     ancestors := None;
     parent := None;
     children :=
       Sample.txn "a0"
         (Some [Sample.err "x1"; Sample.err "x2"; Sample.err "x3"; Sample.err "x4";
                Sample.err "x5"; Sample.err "x6"; Sample.err "x7"])
       :: tail Sample.seven;
     descendants := None;
     current := Sample.txn "cur" None |}.


(** A trace whose current event is the viewed transaction, with six
    errors of its own. *)
Definition sixErrors : ParsedQuickTrace :=
  {| root := None;
     ancestors := None;
     parent := None;
     children := [];
     descendants := None;
     current :=
       Sample.txn "cur"
         (Some [Sample.err "x1"; Sample.err "x2"; Sample.err "x3"; Sample.err "x4";
                Sample.err "x5"; Sample.err "x6"]) |}.

Definition view (parsed : ParsedQuickTrace) :=
  Sample.quickTraceProps (Some parsed) (Sample.transactionEvent "cur").

End Traces.

(** ** Properties of the reducer *)

Section ReducerFacts.
Context `{Collaborators}.

Lemma hoist_inner_spec currentEvent transaction errs acc :
  foldl (fun errors error =>
           if keepError currentEvent error
           then errors ++ [withTransaction error transaction]
           else errors) acc errs
  = acc ++ map (fun error => withTransaction error transaction)
             (List.filter (keepError currentEvent) errs).
Proof.
  revert acc. induction errs as [|error errs IH]; intros acc; simpl.
  - by rewrite app_nil_r.
  - rewrite IH. destruct (keepError currentEvent error); simpl; [|done].
    by rewrite <- app_assoc.
Qed.

Lemma hoist_outer_spec currentEvent evs acc :
  foldl (fun errors e =>
           foldl (fun errors error =>
                    if keepError currentEvent error
                    then errors ++ [withTransaction error (qt_transaction e)]
                    else errors)
                 errors (default [] (qt_errors e))) acc evs
  = acc ++ flat_map (hoistedOf currentEvent) evs.
Proof.
  revert acc. induction evs as [|e evs IH]; intros acc; simpl.
  - by rewrite app_nil_r.
  - rewrite IH, hoist_inner_spec. unfold hoistedOf. by rewrite <- app_assoc.
Qed.

(** The loops hoist, event by event and in input order, the errors
    that pass the test. *)
Lemma hoistErrors_flat_map currentEvent evs :
  hoistErrors currentEvent evs = flat_map (hoistedOf currentEvent) evs.
Proof. unfold hoistErrors. by rewrite hoist_outer_spec. Qed.

Lemma withTransaction_event_id error transaction :
  te_event_id (withTransaction error transaction) = te_event_id error.
Proof. done. Qed.

Lemma elem_of_hoistErrors currentEvent evs error' :
  error' ∈ hoistErrors currentEvent evs <->
  exists e errs error,
    e ∈ evs /\ qt_errors e = Some errs /\ error ∈ errs
    /\ keepError currentEvent error = true
    /\ error' = withTransaction error (qt_transaction e).
Proof.
  rewrite hoistErrors_flat_map, list_elem_of_In, in_flat_map. split.
  - intros (e & He & Hin). unfold hoistedOf in Hin.
    apply in_map_iff in Hin as (error & <- & Hf).
    apply filter_In in Hf as [Hf Hkeep].
    destruct (qt_errors e) as [errs|] eqn:Herrs; simpl in Hf; [|done].
    exists e, errs, error. by rewrite !list_elem_of_In.
  - intros (e & errs & error & He & Herrs & Herr & Hkeep & ->).
    exists e. split; [by apply list_elem_of_In|].
    unfold hoistedOf. apply in_map_iff. exists error. split; [done|].
    apply filter_In. rewrite Herrs. simpl.
    split; [by apply list_elem_of_In | done].
Qed.

Lemma elem_of_filterCurrent ce evs e :
  e ∈ filterCurrent (Some ce) evs <-> e ∈ evs /\ qt_event_id e <> ev_id ce.
Proof.
  unfold filterCurrent. rewrite !list_elem_of_In, filter_In.
  rewrite negb_true_iff, String.eqb_neq. done.
Qed.

Lemma filterCurrent_sublist currentEvent evs :
  sublist (filterCurrent currentEvent evs) evs.
Proof.
  destruct currentEvent as [ce|]; simpl; [|done].
  induction evs as [|e evs IH]; simpl; [done|].
  destruct (negb _); by constructor.
Qed.

(** *** The three branches of [EventNodeSelector] *)

Lemma EventNodeSelector_empty p :
  combinedCount p = 0 ->
  EventNodeSelector p
  = Ok (EventNode (nodeType (nodeKey p) (currentEvent p) (bucketErrors p))
          (nodeText (text p) (currentEvent p) (bucketErrors p))).
Proof.
  unfold combinedCount, bucketEvents, bucketErrors, EventNodeSelector.
  intros ->. done.
Qed.

Lemma EventNodeSelector_single_error p error :
  bucketErrors p = [error] -> bucketEvents p = [] ->
  EventNodeSelector p = Ok (singleErrorLink p error).
Proof.
  unfold singleErrorLink, bucketEvents, bucketErrors, EventNodeSelector.
  intros -> ->. done.
Qed.

Lemma EventNodeSelector_single_transaction p event :
  bucketErrors p = [] -> bucketEvents p = [event] ->
  EventNodeSelector p = Ok (singleTransactionLink p event).
Proof.
  unfold singleTransactionLink, bucketEvents, bucketErrors, EventNodeSelector.
  intros -> ->. done.
Qed.

Lemma EventNodeSelector_dropdown p :
  1 < combinedCount p ->
  EventNodeSelector p
  = Ok (DropdownLink (dropdownTitle p) (isRight (anchor p)) (dropdownChildren p)).
Proof.
  unfold dropdownChildren, combinedCount, dropdownTitle, cap, bucketEvents, bucketErrors,
    EventNodeSelector.
  intros Hn.
  destruct (Nat.eqb_spec
              (length (filterCurrent (currentEvent p) (events p))
               + length (hoistErrors (currentEvent p) (events p))) 0); [lia|].
  destruct (Nat.eqb_spec
              (length (filterCurrent (currentEvent p) (events p))
               + length (hoistErrors (currentEvent p) (events p))) 1); [lia|].
  done.
Qed.

(** A bucket of one item holds one error and no event, or one event and
    no error. *)
Lemma combinedCount_one p :
  combinedCount p = 1 ->
  (exists error, bucketErrors p = [error] /\ bucketEvents p = [])
  \/ (exists event, bucketErrors p = [] /\ bucketEvents p = [event]).
Proof.
  unfold combinedCount. intros Hn.
  destruct (bucketErrors p) as [|error [|]], (bucketEvents p) as [|event [|]];
    simpl in Hn; try lia; [right | left]; eauto.
Qed.

(** [EventNodeSelector] never throws: both [events[0]] and [errors[0]]
    are read only where they exist. *)
Lemma EventNodeSelector_total p : exists v, EventNodeSelector p = Ok v.
Proof.
  destruct (decide (combinedCount p = 0)) as [H0|H0].
  { eexists. by apply EventNodeSelector_empty. }
  destruct (decide (combinedCount p = 1)) as [H1|H1].
  { destruct (combinedCount_one p H1) as [(error & He & Hv)|(event & He & Hv)].
    - eexists. by apply EventNodeSelector_single_error.
    - eexists. by apply EventNodeSelector_single_transaction. }
  eexists. apply EventNodeSelector_dropdown. lia.
Qed.

(** *** What a dropdown lists *)

Lemma rowEvents_app (xs ys : list DropdownChild) :
  rowEvents (xs ++ ys) = rowEvents xs ++ rowEvents ys.
Proof. unfold rowEvents. apply omap_app. Qed.

Lemma overflowItems_app (xs ys : list DropdownChild) :
  overflowItems (xs ++ ys) = overflowItems xs ++ overflowItems ys.
Proof. unfold overflowItems. apply List.filter_app. Qed.

Lemma rows_imap {A} (f : nat -> A -> DropdownChild) (g : A -> DropdownEvent) (l : list A) :
  (forall i x, exists r, f i x = DropdownNodeItem r /\ dn_event r = g x) ->
  rowEvents (imap f l) = map g l /\ overflowItems (imap f l) = [].
Proof.
  revert f. induction l as [|x l IH]; intros f Hf; simpl; [done|].
  destruct (Hf 0 x) as (r & -> & <-).
  destruct (IH (f ∘ S)) as [IH1 IH2]; [intros i y; apply Hf|].
  unfold rowEvents in *. simpl. by rewrite IH1, IH2.
Qed.

Lemma rows_errorItems p (errs : list TraceError) :
  rowEvents (imap (errorItem p) errs) = map OfError errs
  /\ overflowItems (imap (errorItem p) errs) = [].
Proof. apply rows_imap. intros i x. by eexists. Qed.

Lemma rows_eventItems p errors (evs : list QuickTraceEvent) :
  rowEvents (imap (eventItem p errors) evs) = map OfTransaction evs
  /\ overflowItems (imap (eventItem p errors) evs) = [].
Proof. apply rows_imap. intros i x. by eexists. Qed.

(** When the aggregate item is there, and what it is. *)
Lemma extrasItem_spec p :
  extrasItem p (cap p)
    (dropdownHoverText (nodeKey p) (bucketErrors p) (bucketEvents p)) (bucketEvents p)
  = match extrasTarget p with
    | Some target =>
        if (cap p <? length (bucketEvents p)) && truthyLocation target
        then [overflowItem p target] else []
    | None => []
    end.
Proof.
  unfold extrasItem, overflowItem. destruct (extrasTarget p) as [target|]; simpl.
  - by rewrite andb_true_r.
  - by rewrite andb_false_r.
Qed.

Lemma rows_extrasItem p n hoverText evs :
  rowEvents (extrasItem p n hoverText evs) = []
  /\ overflowItems (extrasItem p n hoverText evs) = extrasItem p n hoverText evs.
Proof.
  unfold extrasItem.
  destruct (_ && _ && _); [|done]. by destruct (extrasTarget p).
Qed.

Lemma rowEvents_dropdownChildren p :
  rowEvents (dropdownChildren p)
  = map OfError (take (cap p) (bucketErrors p))
    ++ map OfTransaction (take (cap p) (bucketEvents p)).
Proof.
  unfold dropdownChildren. rewrite !rowEvents_app.
  rewrite (proj1 (rows_errorItems _ _)), (proj1 (rows_eventItems _ _ _)).
  rewrite (proj1 (rows_extrasItem _ _ _ _)). by rewrite app_nil_r.
Qed.

Lemma overflowItems_dropdownChildren p :
  overflowItems (dropdownChildren p)
  = extrasItem p (cap p)
      (dropdownHoverText (nodeKey p) (bucketErrors p) (bucketEvents p))
      (bucketEvents p).
Proof.
  unfold dropdownChildren. rewrite !overflowItems_app.
  rewrite (proj2 (rows_errorItems _ _)), (proj2 (rows_eventItems _ _ _)).
  by rewrite (proj2 (rows_extrasItem _ _ _ _)).
Qed.

End ReducerFacts.

Section ReducerClaims.
Context `{Collaborators}.

Lemma bucketEvents_exclude_current p ce :
  currentEvent p = Some ce ->
  Forall (fun e => qt_event_id e <> ev_id ce) (bucketEvents p).
Proof.
  intros Hce. apply Forall_forall. intros e He.
  unfold bucketEvents in He. rewrite Hce in He.
  by apply elem_of_filterCurrent in He as [_ ?].
Qed.





(** C4: a bucket of more than one item is rendered as a dropdown whose
    rows are the hoisted errors, at most cap of them, followed by the
    events, at most cap of them, each in input order; three errors and two
    events under cap five give three error rows, two event rows and no
    aggregate item. *)
Theorem dropdown_lists_errors_then_events p :
  1 < combinedCount p ->
  exists title anchorRight children,
    EventNodeSelector p = Ok (DropdownLink title anchorRight children)
    /\ rowEvents children
       = map OfError (take (cap p) (bucketErrors p))
         ++ map OfTransaction (take (cap p) (bucketEvents p))
    /\ length (take (cap p) (bucketErrors p)) <= cap p
    /\ length (take (cap p) (bucketEvents p)) <= cap p
    /\ take (cap p) (bucketErrors p) `prefix_of` bucketErrors p
    /\ bucketErrors p = flat_map (hoistedOf (currentEvent p)) (events p)
    /\ take (cap p) (bucketEvents p) `prefix_of` bucketEvents p
    /\ bucketEvents p `sublist_of` events p
    /\ (length (bucketErrors p) = 3 -> length (bucketEvents p) = 2 -> cap p = 5 ->
        children
        = imap (errorItem p) (bucketErrors p)
          ++ imap (eventItem p (bucketErrors p)) (bucketEvents p)
        /\ overflowItems children = []).
Proof.
  intros Hn.
  exists (dropdownTitle p), (isRight (anchor p)), (dropdownChildren p).
  split; [by apply EventNodeSelector_dropdown|].
  split; [apply rowEvents_dropdownChildren|].
  split; [rewrite length_take; lia|].
  split; [rewrite length_take; lia|].
  split; [apply prefix_take|].
  split; [apply hoistErrors_flat_map|].
  split; [apply prefix_take|].
  split; [apply filterCurrent_sublist|].
  intros Herrs Hevs Hcap.
  assert (Hx : extrasItem p (cap p)
                 (dropdownHoverText (nodeKey p) (bucketErrors p) (bucketEvents p))
                 (bucketEvents p) = []).
  { rewrite extrasItem_spec. destruct (extrasTarget p); [|done].
    by destruct (Nat.ltb_spec (cap p) (length (bucketEvents p))); [lia|]. }
  rewrite overflowItems_dropdownChildren. split; [|done].
  unfold dropdownChildren. rewrite Hx, app_nil_r.
  by rewrite !take_ge by lia.
Qed.

(** C7 (amended): a bucket without items is rendered as a bare label,
    never a link or a dropdown; the label is black in the current slot and
    white elsewhere unless a current event that is not a transaction was
    supplied, in which case it is error-styled in the current slot and
    warning-styled elsewhere, behind the fire icon. *)
Theorem empty_bucket_is_label_only p :
  combinedCount p = 0 ->
  EventNodeSelector p
  = Ok (if currentIsNotTransaction p
        then EventNode (if NodeKey_eqb (nodeKey p) KCurrent then TagError else TagWarning)
               (ErrorNodeContent (text p))
        else EventNode (if NodeKey_eqb (nodeKey p) KCurrent then TagBlack else TagWhite)
               (PlainText (text p))).
Proof.
  intros H0. rewrite (EventNodeSelector_empty p H0).
  unfold combinedCount in H0.
  assert (Herrs : bucketErrors p = []) by (apply length_zero_iff_nil; lia).
  rewrite Herrs. unfold nodeType, nodeText, escalates, currentIsNotTransaction. simpl.
  by destruct (currentEvent p) as [ce|]; [destruct (negb _)|].
Qed.

(** C8: a bucket of exactly one item is rendered as a single link: to
    the single-error target, under the fixed hover text, when the item is
    an error; to the single-transaction target, under the summary of that
    event, when it is an event. *)
Theorem single_item_is_single_link p :
  combinedCount p = 1 ->
  (exists error,
      bucketErrors p = [error] /\ bucketEvents p = []
      /\ EventNodeSelector p
         = Ok (StyledEventNode
                 {| en_text := nodeText (text p) (currentEvent p) [error];
                    en_hoverText :=
                      HoverMessage (Locale.t "View the error for this Transaction" []);
                    en_to := Some (generateSingleErrorTarget error (organization p)
                                     (location p) (errorDest p));
                    en_onClick := Some (OnHandleNode (nodeKey p) (organization p));
                    en_type := nodeType (nodeKey p) (currentEvent p) [error] |}))
  \/ (exists event,
      bucketErrors p = [] /\ bucketEvents p = [event]
      /\ EventNodeSelector p
         = Ok (StyledEventNode
                 {| en_text := nodeText (text p) (currentEvent p) [];
                    en_hoverText := SingleEventHoverText event;
                    en_to := Some (generateSingleTransactionTarget event (organization p)
                                     (location p) (transactionDest p));
                    en_onClick := Some (OnHandleNode (nodeKey p) (organization p));
                    en_type := nodeType (nodeKey p) (currentEvent p) [] |})).
Proof.
  intros H1.
  destruct (combinedCount_one p H1) as [(error & He & Hv)|(event & He & Hv)].
  - left. exists error. do 2 (split; [done|]).
    rewrite (EventNodeSelector_single_error p error He Hv).
    unfold singleErrorLink. by rewrite He.
  - right. exists event. do 2 (split; [done|]).
    rewrite (EventNodeSelector_single_transaction p event He Hv).
    unfold singleTransactionLink. by rewrite He.
Qed.

(** C10 (amended): the errors of a copy of the current event are hoisted before
    the copy is removed: each error whose identifier is not the current
    event's is among the bucket's errors, under the copy's transaction
    name, and is rendered wherever its place in that list is below the
    cap, while the copy itself is gone from the bucket's events. *)
Theorem errors_of_current_copy_are_hoisted p ce e errs error :
  currentEvent p = Some ce ->
  e ∈ events p ->
  qt_event_id e = ev_id ce ->
  qt_errors e = Some errs ->
  error ∈ errs ->
  te_event_id error <> ev_id ce ->
  withTransaction error (qt_transaction e) ∈ bucketErrors p
  /\ (e ∉ bucketEvents p)
  /\ exists v,
       EventNodeSelector p = Ok v
       /\ (forall text type, v <> EventNode type text)
       /\ (forall i, bucketErrors p !! i = Some (withTransaction error (qt_transaction e)) ->
             i < cap p -> showsError p v (withTransaction error (qt_transaction e))).
Proof.
  intros Hce He Hid Herrs Herror Hne.
  assert (Hin : withTransaction error (qt_transaction e) ∈ bucketErrors p).
  { unfold bucketErrors. apply elem_of_hoistErrors.
    exists e, errs, error. rewrite Hce. simpl.
    repeat split; try done. by apply negb_true_iff, String.eqb_neq. }
  split; [done|]. split.
  { intros Hev. pose proof (bucketEvents_exclude_current p ce Hce) as Hall.
    by apply (proj1 (Forall_forall _ _) Hall e Hev). }
  assert (Hpos : combinedCount p <> 0).
  { unfold combinedCount. destruct (bucketErrors p); [by apply elem_of_nil in Hin|].
    simpl. lia. }
  destruct (decide (combinedCount p = 1)) as [H1|H1].
  { destruct (combinedCount_one p H1) as [(error' & He' & Hv)|(event & He' & Hv)].
    - exists (singleErrorLink p error').
      split; [by apply EventNodeSelector_single_error|].
      split; [done|]. intros i Hi _. rewrite He' in Hin.
      apply list_elem_of_singleton in Hin. subst error'. done.
    - rewrite He' in Hin. by apply elem_of_nil in Hin. }
  exists (DropdownLink (dropdownTitle p) (isRight (anchor p)) (dropdownChildren p)).
  split; [apply EventNodeSelector_dropdown; lia|].
  split; [done|]. intros i Hi Hlt. simpl.
  rewrite rowEvents_dropdownChildren. apply elem_of_app. left.
  apply list_elem_of_In, in_map, list_elem_of_In.
  apply elem_of_take. by exists i.
Qed.

End ReducerClaims.

(** ** Properties of the assembler and of the placeholder *)

Section AssemblerFacts.
Context `{Collaborators}.

Lemma nodeKey_bucketProps q parsed k : nodeKey (bucketProps q parsed k) = k.
Proof. by destruct k. Qed.

Lemma events_bucketProps q parsed k : events (bucketProps q parsed k) = bucketOf parsed k.
Proof. by destruct k. Qed.

Lemma numEvents_bucketProps q parsed k : numEvents (bucketProps q parsed k) = None.
Proof. by destruct k. Qed.

Lemma extrasTarget_bucketProps q parsed k :
  k = KRoot \/ k = KParent \/ k = KCurrent ->
  extrasTarget (bucketProps q parsed k) = None.
Proof. by intros [->|[->| ->]]. Qed.

(** Only the current slot is given the current event. *)
Lemma currentEvent_bucketProps q parsed k :
  currentEvent (bucketProps q parsed k)
  = if NodeKey_eqb k KCurrent then Some (qp_event q) else None.
Proof. by destruct k. Qed.

(** So an optional bucket counts no item exactly when it holds no
    event. *)
Lemma bucketIsEmpty_optional q parsed k :
  k <> KCurrent ->
  bucketIsEmpty q parsed k = Nat.eqb (length (bucketOf parsed k)) 0.
Proof.
  intros Hk. unfold bucketIsEmpty, combinedCount, bucketEvents, bucketErrors.
  rewrite events_bucketProps, currentEvent_bucketProps.
  assert (Hf : NodeKey_eqb k KCurrent = false) by by destruct k.
  rewrite Hf. simpl. by destruct (bucketOf parsed k).
Qed.

Lemma leading_optional q parsed k :
  k <> KCurrent ->
  leading q parsed k
  = match bucketOf parsed k with
    | [] => []
    | _ => [bucketNode q parsed k; bucketConnector k]
    end.
Proof.
  intros Hk. unfold leading. rewrite bucketIsEmpty_optional by done.
  by destruct (bucketOf parsed k).
Qed.

Lemma trailing_optional q parsed k :
  k <> KCurrent ->
  trailing q parsed k
  = match bucketOf parsed k with
    | [] => []
    | _ => [bucketConnector k; bucketNode q parsed k]
    end.
Proof.
  intros Hk. unfold trailing. rewrite bucketIsEmpty_optional by done.
  by destruct (bucketOf parsed k).
Qed.

(** The pushes of [QuickTrace] build the sequence the specification
    prescribes. *)
Lemma buildNodes_assembleTrace q parsed : buildNodes q parsed = assembleTrace q parsed.
Proof.
  unfold assembleTrace.
  rewrite !leading_optional, !trailing_optional by done.
  unfold buildNodes, placeholder, bucketNode, bucketConnector, bucketProps.
  destruct parsed as [r a pa ch d cu]. simpl.
  destruct r as [r|], a as [[|a0 a]|], pa as [pa|], ch as [|c0 ch], d as [[|d0 d]|],
    (missingChild cu); reflexivity.
Qed.

Lemma QuickTrace_parsed q parsed :
  parseQuickTrace (qp_quickTrace q) (qp_event q) = Ok parsed ->
  QuickTrace q = Ok (QuickTraceContainer (assembleTrace q parsed)).
Proof. unfold QuickTrace. intros ->. by rewrite buildNodes_assembleTrace. Qed.

(** Every [EventNodeSelector] among the nodes renders one of the six
    buckets. *)
Lemma buildNodes_selector q parsed key p :
  EventNodeSelectorElt key p ∈ buildNodes q parsed ->
  exists k, p = bucketProps q parsed k.
Proof.
  rewrite buildNodes_assembleTrace. unfold assembleTrace, leading, trailing, placeholder.
  rewrite !elem_of_app.
  intros Hin.
  repeat match goal with
         | H : _ \/ _ |- _ => destruct H as [H|H]
         | H : _ ∈ (if ?b then _ else _) |- _ => destruct b
         | H : _ ∈ [] |- _ => by apply elem_of_nil in H
         | H : _ ∈ _ :: _ |- _ => apply elem_of_cons in H
         | H : EventNodeSelectorElt _ _ = bucketNode _ _ ?k |- _ =>
             exists k; by inversion H
         | H : EventNodeSelectorElt _ _ = _ |- _ => by inversion H
         end.
Qed.

(** *** Rendering never throws *)

Lemma renderNodes_cons st n nodes :
  renderNodes st (n :: nodes)
  = match renderNode st n with
    | Ok r =>
        match renderNodes st nodes with
        | Ok rs => Ok (r ++ rs)
        | Throw e => Throw e
        end
    | Throw e => Throw e
    end.
Proof.
  unfold renderNodes. simpl. unfold mbind, mret, Result_bind, Result_ret.
  destruct (renderNode st n); [|done].
  by destruct (mapM (renderNode st) nodes).
Qed.

Lemma renderNode_total st n : exists r, renderNode st n = Ok r.
Proof.
  destruct n as [key p| |]; simpl; eauto.
  destruct (EventNodeSelector_total p) as [v ->]. by eexists.
Qed.

Lemma renderNodes_total st nodes : exists rs, renderNodes st nodes = Ok rs.
Proof.
  induction nodes as [|n nodes [rs IH]]; [by eexists|].
  rewrite renderNodes_cons, IH.
  destruct (renderNode_total st n) as [r ->]. by eexists.
Qed.

Lemma renderNode_hidden st n r :
  hideMissing st = true -> renderNode st n = Ok r ->
  Forall (fun x => isMissingDropdown x = false) r.
Proof.
  intros Hst. destruct n as [key p| |anchor organization]; simpl.
  - destruct (EventNodeSelector p); simpl; [|done]. intros [= <-]. by repeat constructor.
  - intros [= <-]. by repeat constructor.
  - unfold MissingServiceNode_render. rewrite Hst. intros [= <-]. constructor.
Qed.

Lemma renderNodes_hidden st nodes rs :
  hideMissing st = true -> renderNodes st nodes = Ok rs ->
  Forall (fun x => isMissingDropdown x = false) rs.
Proof.
  intros Hst. revert rs. induction nodes as [|n nodes IH]; intros rs.
  - intros [= <-]. constructor.
  - rewrite renderNodes_cons.
    destruct (renderNode st n) as [r|] eqn:Hr; [|done].
    destruct (renderNodes st nodes) as [rs'|]; [|done].
    intros [= <-]. apply Forall_app. split; [by eapply renderNode_hidden | by apply IH].
Qed.

(** *** The flag in local storage *)

Lemma readMissingServiceState_true w : readMissingServiceState w = true <-> flagSet w.
Proof.
  unfold readMissingServiceState, flagSet.
  destruct (localStorage w !! HIDE_MISSING_SERVICE_KEY) as [value|]; [|done].
  rewrite String.eqb_eq. split; congruence.
Qed.

Lemma dismissMissingService_hides organization c :
  flagSet (dismissMissingService organization c).1
  /\ hideMissing (dismissMissingService organization c).2 = true.
Proof. unfold flagSet. simpl. by rewrite lookup_insert_eq. Qed.

(** No handler clears the flag. *)
Lemma runHandler_flagSet h c : flagSet c.1 -> flagSet (runHandler h c).1.
Proof.
  destruct h; simpl; [done..|]. intros _. apply dismissMissingService_hides.
Qed.

Lemma runHandler_hidden h c :
  hideMissing c.2 = true -> hideMissing (runHandler h c).2 = true.
Proof. by destruct h. Qed.

Lemma step_consistent c c' : consistent c -> step c c' -> consistent c'.
Proof.
  intros Hc Hstep. destruct Hstep as [h c|w st].
  - destruct h; simpl; [exact Hc..|]. intros _. apply dismissMissingService_hides.
  - unfold consistent. simpl. apply readMissingServiceState_true.
Qed.

Lemma reachable_consistent w0 c : reachable w0 c -> consistent c.
Proof.
  induction 1 as [|c c' _ IH Hstep].
  - unfold consistent. simpl. apply readMissingServiceState_true.
  - by eapply step_consistent.
Qed.

Lemma step_hidden c c' :
  consistent c -> hideMissing c.2 = true -> step c c' -> hideMissing c'.2 = true.
Proof.
  intros Hc Hhid Hstep. destruct Hstep as [h c|w st].
  - by apply runHandler_hidden.
  - simpl. apply readMissingServiceState_true. by apply Hc.
Qed.

Lemma steps_hidden c c' :
  rtc step c c' -> flagSet c.1 -> hideMissing c.2 = true ->
  flagSet c'.1 /\ hideMissing c'.2 = true.
Proof.
  induction 1 as [c|c c1 c' Hstep _ IH]; [done|].
  intros Hflag Hhid. apply IH.
  - destruct Hstep as [h c|w st]; [by apply runHandler_flagSet | done].
  - eapply step_hidden; [|done..]. by intros _.
Qed.

End AssemblerFacts.

Section AssemblerClaims.
Context `{Collaborators}.

(** C3 (amended): the nodes come in the order root, ancestors, parent,
    current, missing-service placeholder, children, descendants; each of
    the five optional buckets brings its node and its connector unless its
    combined count is zero, and the current slot is always there. With no
    ancestors and no descendants but a root, a parent and children, the
    sequence is root node, connector, parent node, connector, current node,
    then the placeholder element when the current event is flagged as
    missing a service, then connector, children node. *)
Theorem quick_trace_node_order q parsed :
  parseQuickTrace (qp_quickTrace q) (qp_event q) = Ok parsed ->
  QuickTrace q = Ok (QuickTraceContainer (assembleTrace q parsed))
  /\ (bucketOf parsed KAncestors = [] -> bucketOf parsed KDescendants = [] ->
      bucketOf parsed KRoot <> [] -> bucketOf parsed KParent <> [] ->
      bucketOf parsed KChildren <> [] ->
      map nodeLabel (assembleTrace q parsed)
      = ["root-node"; "root-connector"; "parent-node"; "parent-connector"; "current-node"]
        ++ (if missingChild (current parsed) then ["missing-service"] else [])
        ++ ["children-connector"; "children-node"]).
Proof.
  intros Hparse. split; [by apply QuickTrace_parsed|].
  intros Ha Hd Hr Hp Hc. unfold assembleTrace.
  rewrite !leading_optional, !trailing_optional by done.
  rewrite Ha, Hd. unfold placeholder.
  destruct (bucketOf parsed KRoot), (bucketOf parsed KParent),
    (bucketOf parsed KChildren); try done.
  by destruct (missingChild (current parsed)).
Qed.

(** C5: when the parser throws, [QuickTrace] returns the em-dash
    fragment and throws nothing; when the parser returns, [QuickTrace]
    returns its container and rendering its nodes throws nothing either. *)
Theorem parse_failure_is_recovered q :
  (forall e, parseQuickTrace (qp_quickTrace q) (qp_event q) = Throw e ->
             QuickTrace q = Ok (Fragment "—"))
  /\ (forall parsed, parseQuickTrace (qp_quickTrace q) (qp_event q) = Ok parsed ->
        exists nodes,
          QuickTrace q = Ok (QuickTraceContainer nodes)
          /\ forall st, exists rendered, renderNodes st nodes = Ok rendered)
  /\ (exists view, QuickTrace q = Ok view).
Proof.
  unfold QuickTrace.
  destruct (parseQuickTrace (qp_quickTrace q) (qp_event q)) as [parsed|e].
  - split; [done|]. split; [|by eexists].
    intros ? [= <-]. eexists. split; [done|]. intros st. apply renderNodes_total.
  - split; [done|]. split; [done | by eexists].
Qed.

(** C6: the placeholder is hidden or visible; a new instance is hidden
    exactly when local storage holds "1" under the key; dismissing writes
    "1" there and hides the instance; no step of a constructed widget
    leads from hidden to visible; and after a dismissal every later state,
    of the same instance or of one constructed anew, renders no
    placeholder. *)
Theorem dismissal_is_permanent w0 :
  (hideMissing (MissingServiceNode_state w0) = true
   <-> localStorage w0 !! HIDE_MISSING_SERVICE_KEY = Some "1")
  /\ (forall organization c,
        localStorage (dismissMissingService organization c).1 !! HIDE_MISSING_SERVICE_KEY
        = Some "1"
        /\ hideMissing (dismissMissingService organization c).2 = true)
  /\ (forall c c',
        reachable w0 c -> step c c' -> hideMissing c.2 = true -> hideMissing c'.2 = true)
  /\ (forall organization c c',
        reachable w0 c ->
        rtc step (dismissMissingService organization c) c' ->
        hideMissing c'.2 = true
        /\ hideMissing (MissingServiceNode_state c'.1) = true
        /\ (forall anchor organization',
              MissingServiceNode_render anchor organization' c'.2 = []
              /\ MissingServiceNode_render anchor organization'
                   (MissingServiceNode_state c'.1) = [])
        /\ (forall q parsed rendered,
              renderNodes (MissingServiceNode_state c'.1) (buildNodes q parsed)
              = Ok rendered ->
              Forall (fun r => isMissingDropdown r = false) rendered)).
Proof.
  split; [apply readMissingServiceState_true|].
  split; [intros; apply dismissMissingService_hides|].
  split.
  { intros c c' Hreach Hstep Hhid.
    eapply step_hidden; [|done..]. by eapply reachable_consistent. }
  intros organization c c' _ Hsteps.
  destruct (dismissMissingService_hides organization c) as [Hflag Hhid].
  destruct (steps_hidden _ _ Hsteps Hflag Hhid) as [Hflag' Hhid'].
  assert (Hnew : hideMissing (MissingServiceNode_state c'.1) = true)
    by by apply readMissingServiceState_true.
  split; [done|]. split; [done|]. split.
  - intros anchor organization'. unfold MissingServiceNode_render.
    by rewrite Hhid', Hnew.
  - intros q parsed rendered. by apply renderNodes_hidden.
Qed.

(** C9: in a dropdown the aggregate item is there exactly when the node
    was given a truthy extras target and the events outnumber the cap;
    errors beyond the cap are dropped without one, and the root, parent and
    current nodes of [QuickTrace], which get no extras target, never have
    one. *)
Theorem overflow_needs_target_and_excess_events p :
  1 < combinedCount p ->
  exists title anchorRight children,
    EventNodeSelector p = Ok (DropdownLink title anchorRight children)
    /\ (overflowItems children <> []
        <-> (exists target, extrasTarget p = Some target /\ truthyLocation target = true)
            /\ cap p < length (bucketEvents p))
    /\ length (overflowItems children) <= 1
    /\ (cap p < length (bucketErrors p) -> length (bucketEvents p) <= cap p ->
        overflowItems children = []
        /\ rowEvents children
           = map OfError (take (cap p) (bucketErrors p))
             ++ map OfTransaction (bucketEvents p)
        /\ length (take (cap p) (bucketErrors p)) = cap p)
    /\ (extrasTarget p = None -> overflowItems children = [])
    /\ (forall q parsed key,
          EventNodeSelectorElt key p ∈ buildNodes q parsed ->
          nodeKey p = KRoot \/ nodeKey p = KParent \/ nodeKey p = KCurrent ->
          extrasTarget p = None /\ overflowItems children = []).
Proof.
  intros Hn.
  exists (dropdownTitle p), (isRight (anchor p)), (dropdownChildren p).
  split; [by apply EventNodeSelector_dropdown|].
  rewrite overflowItems_dropdownChildren, rowEvents_dropdownChildren, extrasItem_spec.
  assert (Hnone : extrasTarget p = None ->
                  match extrasTarget p with
                  | Some target =>
                      if (cap p <? length (bucketEvents p)) && truthyLocation target
                      then [overflowItem p target] else []
                  | None => []
                  end = []) by by intros ->.
  split.
  { destruct (extrasTarget p) as [target|].
    - destruct (Nat.ltb_spec (cap p) (length (bucketEvents p))) as [Hlt|Hge];
        destruct (truthyLocation target) eqn:Htruthy; simpl; split;
        try done; try (intros [(t & [= <-] & Ht) Hlt']; congruence || lia).
      intros _. split; [by exists target | done].
    - split; [done|]. by intros [(t & Ht & _) _]. }
  split.
  { destruct (extrasTarget p) as [target|]; [|simpl; lia].
    destruct (_ && _); simpl; lia. }
  split.
  { intros Herrs Hevs. split; [|split].
    - destruct (extrasTarget p) as [target|]; [|done].
      by destruct (Nat.ltb_spec (cap p) (length (bucketEvents p))); [lia|].
    - by rewrite (take_ge (bucketEvents p)) by lia.
    - rewrite length_take. lia. }
  split; [done|].
  intros q parsed key Hin Hkey.
  destruct (buildNodes_selector q parsed key p Hin) as [k Hp].
  assert (Hx : extrasTarget p = None).
  { rewrite Hp in Hkey |- *. rewrite nodeKey_bucketProps in Hkey.
    by apply extrasTarget_bucketProps. }
  split; [done | by apply Hnone].
Qed.




End AssemblerClaims.

(** ** Further properties of the reducer *)

Section ReducerExtras.
Context `{Collaborators}.

Lemma rowProps_app (xs ys : list DropdownChild) :
  rowProps (xs ++ ys) = rowProps xs ++ rowProps ys.
Proof. unfold rowProps. apply omap_app. Qed.

(** The rows of [imap f l] stand one for one for the items of [l]. *)
Lemma rowProps_imap_lookup {A} (P : nat -> A -> DropdownNodeProps -> Prop)
    (f : nat -> A -> DropdownChild) (l : list A) :
  (forall i x, exists r, f i x = DropdownNodeItem r /\ P i x r) ->
  length (rowProps (imap f l)) = length l
  /\ forall j r, rowProps (imap f l) !! j = Some r -> exists x, l !! j = Some x /\ P j x r.
Proof.
  revert P f. induction l as [|x l IH]; intros P f Hf; simpl; [done|].
  destruct (Hf 0 x) as (r0 & Heq & HP).
  destruct (IH (fun i => P (S i)) (f ∘ S)) as [IHlen IHrows]; [intros i y; apply Hf|].
  unfold rowProps in *. simpl. rewrite Heq. simpl. split; [by rewrite IHlen|].
  intros [|j] r; simpl.
  - intros [= <-]. eauto.
  - apply IHrows.
Qed.

Lemma rowProps_extrasItem p n hoverText evs : rowProps (extrasItem p n hoverText evs) = [].
Proof.
  unfold extrasItem. destruct (_ && _ && _); [|done]. by destruct (extrasTarget p).
Qed.

(** The rows of the dropdown: what each stands for, where it leads
    and whether it is marked first. *)
Lemma dropdown_row p j r :
  rowProps (dropdownChildren p) !! j = Some r ->
  dn_onSelect r
  = Some (OnHandleDropdownItem (itemTarget p (dn_event r)) (nodeKey p) (organization p) false)
  /\ dn_first r = Nat.eqb j 0
  /\ dn_organization r = organization p
  /\ dn_anchor r = anchor p.
Proof.
  unfold dropdownChildren. rewrite !rowProps_app, rowProps_extrasItem, app_nil_r.
  destruct (rowProps_imap_lookup
              (fun i (error : TraceError) r =>
                 dn_onSelect r
                 = Some (OnHandleDropdownItem (itemTarget p (dn_event r)) (nodeKey p)
                           (organization p) false)
                 /\ dn_first r = Nat.eqb i 0
                 /\ dn_organization r = organization p /\ dn_anchor r = anchor p)
              (errorItem p) (take (cap p) (bucketErrors p)))
    as [Hlen1 Hrows1]; [intros i x; by eexists|].
  destruct (rowProps_imap_lookup
              (fun i (event : QuickTraceEvent) r =>
                 dn_onSelect r
                 = Some (OnHandleDropdownItem (itemTarget p (dn_event r)) (nodeKey p)
                           (organization p) false)
                 /\ dn_first r = Nat.eqb i 0 && Nat.eqb (length (bucketErrors p)) 0
                 /\ dn_organization r = organization p /\ dn_anchor r = anchor p)
              (eventItem p (bucketErrors p)) (take (cap p) (bucketEvents p)))
    as [Hlen2 Hrows2]; [intros i x; by eexists|].
  intros Hj. apply lookup_app_Some in Hj as [Hj|[Hge Hj]].
  - by destruct (Hrows1 j r Hj) as (_ & _ & ?).
  - rewrite Hlen1 in Hge, Hj.
    destruct (Hrows2 _ r Hj) as (event & Hev & Hsel & Hfirst & Horg & Hanchor).
    split; [done|]. split; [|done]. rewrite Hfirst.
    apply lookup_lt_Some in Hev. rewrite !length_take in Hge, Hev |- *.
    destruct (length (bucketErrors p)) as [|n].
    + by rewrite Nat.min_0_r, Nat.sub_0_r, andb_true_r.
    + replace (Nat.eqb (S n) 0) with false by done.
      rewrite andb_false_r. symmetry. apply Nat.eqb_neq.
      rewrite length_take in Hev. lia.
Qed.

Lemma EventNodeSelector_dropdown_inv p title anchorRight children :
  EventNodeSelector p = Ok (DropdownLink title anchorRight children) ->
  1 < combinedCount p /\ title = dropdownTitle p /\ anchorRight = isRight (anchor p)
  /\ children = dropdownChildren p.
Proof.
  intros Heq.
  destruct (decide (combinedCount p = 0)) as [H0|H0].
  { by rewrite (EventNodeSelector_empty p H0) in Heq. }
  destruct (decide (combinedCount p = 1)) as [H1|H1].
  { destruct (combinedCount_one p H1) as [(error & He & Hv)|(event & He & Hv)].
    - by rewrite (EventNodeSelector_single_error p error He Hv) in Heq.
    - by rewrite (EventNodeSelector_single_transaction p event He Hv) in Heq. }
  assert (Hn : 1 < combinedCount p) by lia.
  rewrite (EventNodeSelector_dropdown p Hn) in Heq. injection Heq as <- <- <-. done.
Qed.

(** X1: in a dropdown the row listed first, and no other, is marked
    [first], whether it stands for an error or for an event. *)
Theorem only_the_first_row_is_marked_first p :
  1 < combinedCount p ->
  exists title anchorRight children,
    EventNodeSelector p = Ok (DropdownLink title anchorRight children)
    /\ forall i r, rowProps children !! i = Some r -> dn_first r = Nat.eqb i 0.
Proof.
  intros Hn. exists (dropdownTitle p), (isRight (anchor p)), (dropdownChildren p).
  split; [by apply EventNodeSelector_dropdown|].
  intros i r Hi. by destruct (dropdown_row p i r Hi) as (_ & ? & _).
Qed.

(** X2: selecting a row of a dropdown records one
    "quick_trace.dropdown.clicked" event under the node's key and pushes
    onto the history the target of the very event the row stands for; it
    changes neither local storage nor the placeholder's state. *)
Theorem selecting_a_row_leads_to_its_event p :
  1 < combinedCount p ->
  exists title anchorRight children,
    EventNodeSelector p = Ok (DropdownLink title anchorRight children)
    /\ forall r, r ∈ rowProps children ->
         exists h,
           dn_onSelect r = Some h
           /\ forall c,
                browserHistory (runHandler h c).1
                = browserHistory c.1 ++ [itemTarget p (dn_event r)]
                /\ analytics (runHandler h c).1
                   = analytics c.1 ++ [dropdownClicked (nodeKey p) (organization p) false]
                /\ localStorage (runHandler h c).1 = localStorage c.1
                /\ (runHandler h c).2 = c.2.
Proof.
  intros Hn. exists (dropdownTitle p), (isRight (anchor p)), (dropdownChildren p).
  split; [by apply EventNodeSelector_dropdown|].
  intros r Hr. apply list_elem_of_lookup in Hr as [i Hi].
  destruct (dropdown_row p i r Hi) as (Hsel & _).
  eexists. split; [exact Hsel|]. intros c. done.
Qed.

(** X3: the aggregate item of a dropdown, when there is one, pushes the
    node's extras target and records the click under
    "quick_trace.dropdown.clicked_extra". *)
Theorem selecting_the_aggregate_item_leads_to_all p :
  1 < combinedCount p ->
  exists title anchorRight children,
    EventNodeSelector p = Ok (DropdownLink title anchorRight children)
    /\ forall h content, DropdownItem h content ∈ children ->
         exists target,
           extrasTarget p = Some target
           /\ content = dropdownHoverText (nodeKey p) (bucketErrors p) (bucketEvents p)
           /\ forall c,
                browserHistory (runHandler h c).1 = browserHistory c.1 ++ [target]
                /\ analytics (runHandler h c).1
                   = analytics c.1 ++ [dropdownClicked (nodeKey p) (organization p) true]
                /\ localStorage (runHandler h c).1 = localStorage c.1
                /\ (runHandler h c).2 = c.2.
Proof.
  intros Hn. exists (dropdownTitle p), (isRight (anchor p)), (dropdownChildren p).
  split; [by apply EventNodeSelector_dropdown|].
  intros h content Hin.
  assert (Hov : DropdownItem h content ∈ overflowItems (dropdownChildren p)).
  { unfold overflowItems. by apply list_elem_of_In, filter_In; split; [apply list_elem_of_In|]. }
  rewrite overflowItems_dropdownChildren, extrasItem_spec in Hov.
  destruct (extrasTarget p) as [target|]; [|by apply elem_of_nil in Hov].
  destruct (_ && _); [|by apply elem_of_nil in Hov].
  apply list_elem_of_singleton in Hov. unfold overflowItem in Hov.
  injection Hov as -> ->. exists target. done.
Qed.

(** Every view is typed and labelled the same way. *)
Lemma EventNodeSelector_type_and_text p :
  exists v,
    EventNodeSelector p = Ok v
    /\ viewType v = nodeType (nodeKey p) (currentEvent p) (bucketErrors p)
    /\ viewText v = nodeText (text p) (currentEvent p) (bucketErrors p)
    /\ (combinedCount p <> 0 -> forall type text, v <> EventNode type text).
Proof.
  destruct (decide (combinedCount p = 0)) as [H0|H0].
  { eexists. split; [by apply EventNodeSelector_empty|]. done. }
  destruct (decide (combinedCount p = 1)) as [H1|H1].
  { destruct (combinedCount_one p H1) as [(error & He & Hv)|(event & He & Hv)].
    - eexists. split; [by apply EventNodeSelector_single_error|]. done.
    - eexists. split; [by apply EventNodeSelector_single_transaction|]. done. }
  eexists. split; [apply EventNodeSelector_dropdown; lia|]. done.
Qed.


(** X5: a hoisted error keeps its identifier and its project and takes
    the transaction name of the event it was attached to; without a current
    event every error of every event is hoisted, with one never more than
    that. *)
Theorem hoisted_errors_take_the_owner_name currentEvent events :
  (forall error', error' ∈ hoistErrors currentEvent events ->
     exists e error,
       e ∈ events /\ error ∈ default [] (qt_errors e)
       /\ te_event_id error' = te_event_id error
       /\ te_project_slug error' = te_project_slug error
       /\ te_transaction error' = qt_transaction e)
  /\ length (hoistErrors None events) = errorCount events
  /\ length (hoistErrors currentEvent events) <= errorCount events.
Proof.
  split; [|split].
  - intros error' Hin.
    apply elem_of_hoistErrors in Hin as (e & errs & error & He & Herrs & Herr & _ & ->).
    exists e, error. rewrite Herrs. done.
  - rewrite hoistErrors_flat_map. unfold errorCount.
    induction events as [|e events IH]; simpl; [done|].
    rewrite length_app, IH. unfold hoistedOf. rewrite length_map. simpl.
    f_equal. f_equal. by induction (default [] (qt_errors e)) as [|x l IHl]; simpl; [|f_equal].
  - rewrite hoistErrors_flat_map. unfold errorCount.
    induction events as [|e events IH]; simpl; [done|].
    rewrite length_app. unfold hoistedOf at 1. rewrite length_map.
    pose proof (List.filter_length_le (keepError currentEvent) (default [] (qt_errors e))).
    lia.
Qed.

(** X6: a dropdown has as many rows as the cap lets through of each
    kind, and a bucket whose errors and whose events both fit under the cap
    is listed in full, without an aggregate item. *)
Theorem rows_are_counted_by_the_cap p :
  1 < combinedCount p ->
  exists title anchorRight children,
    EventNodeSelector p = Ok (DropdownLink title anchorRight children)
    /\ length (rowEvents children)
       = cap p `min` length (bucketErrors p) + cap p `min` length (bucketEvents p)
    /\ (length (bucketErrors p) <= cap p -> length (bucketEvents p) <= cap p ->
        rowEvents children
        = map OfError (bucketErrors p) ++ map OfTransaction (bucketEvents p)
        /\ overflowItems children = []).
Proof.
  intros Hn. exists (dropdownTitle p), (isRight (anchor p)), (dropdownChildren p).
  split; [by apply EventNodeSelector_dropdown|].
  rewrite rowEvents_dropdownChildren, overflowItems_dropdownChildren, extrasItem_spec.
  split; [by rewrite length_app, !length_map, !length_take|].
  intros Herrs Hevs. rewrite !take_ge by done. split; [done|].
  destruct (extrasTarget p) as [target|]; [|done].
  by destruct (Nat.ltb_spec (cap p) (length (bucketEvents p))); [lia|].
Qed.

End ReducerExtras.

(** X7: the badge of a dropdown row always carries the project slug of
    the row's event: the first project of that slug among those [Projects]
    supplies, or the bare slug when there is none; and the transaction name
    expands away from the anchor. *)
Theorem row_badge_has_the_event_project (props : DropdownNodeProps)
    (projects : list Project) :
  let view := DropdownNodeItem_render props in
  avatarSlug (di_badge view projects) = itemProjectSlug (dn_event props)
  /\ (forall project, di_badge view projects = FullProject project -> project ∈ projects)
  /\ ((exists project, project ∈ projects
                       /\ project_slug project = itemProjectSlug (dn_event props))
      <-> exists project, di_badge view projects = FullProject project)
  /\ di_expandDirection view <> dn_anchor props
  /\ di_value view = itemTransaction (dn_event props).
Proof.
  simpl.
  destruct (List.find _ projects) as [project|] eqn:Hfind.
  - apply find_some in Hfind as [Hin Hslug]. apply String.eqb_eq in Hslug.
    split; [done|]. split; [intros ? [= <-]; by apply list_elem_of_In|].
    split; [split; eauto; intros _; exists project; by rewrite list_elem_of_In|].
    split; [by destruct (dn_anchor props) | done].
  - split; [done|]. split; [done|]. split.
    + split; [|by intros [? ?]]. intros (project & Hin & Hslug).
      apply list_elem_of_In in Hin.
      pose proof (find_none _ _ Hfind project Hin) as Hne. simpl in Hne.
      apply String.eqb_neq in Hne. done.
    + split; [by destruct (dn_anchor props) | done].
Qed.

(** ** Further properties of the assembler, the handlers and the placeholder *)

Section AssemblerExtras.
Context `{Collaborators}.

(** X8: a handler leaves every key of local storage other than the
    placeholder's alone, appends exactly one analytics event, and only ever
    appends to the history; the handlers of nodes and dropdowns touch
    neither local storage nor the placeholder's state. *)
Theorem handlers_leave_the_rest_alone h c :
  (forall k, k <> HIDE_MISSING_SERVICE_KEY ->
             localStorage (runHandler h c).1 !! k = localStorage c.1 !! k)
  /\ (exists e, analytics (runHandler h c).1 = analytics c.1 ++ [e])
  /\ browserHistory c.1 `prefix_of` browserHistory (runHandler h c).1
  /\ match h with
     | OnDismissMissingService _ =>
         browserHistory (runHandler h c).1 = browserHistory c.1
     | _ =>
         localStorage (runHandler h c).1 = localStorage c.1 /\ (runHandler h c).2 = c.2
     end.
Proof.
  destruct h as [key organization|target key organization extra|organization]; simpl.
  - split; [done|]. split; [by eexists|]. done.
  - split; [done|]. split; [by eexists|]. split; [by apply prefix_app_r | done].
  - split; [intros k Hk; by rewrite lookup_insert_ne|]. split; [by eexists|]. done.
Qed.

(** X9: dismissing again changes neither local storage nor the state:
    only one more analytics event is recorded. *)
Theorem dismissing_twice_is_dismissing_once organization organization' c :
  localStorage (dismissMissingService organization' (dismissMissingService organization c)).1
  = localStorage (dismissMissingService organization c).1
  /\ (dismissMissingService organization' (dismissMissingService organization c)).2
     = (dismissMissingService organization c).2
  /\ length (analytics
               (dismissMissingService organization' (dismissMissingService organization c)).1)
     = S (length (analytics (dismissMissingService organization c).1)).
Proof.
  simpl. split; [by rewrite insert_insert_eq|]. split; [done|].
  rewrite !length_app. simpl. lia.
Qed.

(** X10: a visible placeholder renders a connector and a dropdown
    that offers "Dismiss"; running the handler of that very item writes the
    flag, so that the instance, and any instance constructed afterwards,
    renders nothing. *)
Theorem the_dismiss_item_hides_the_placeholder anchor organization w st :
  hideMissing st = false ->
  exists title items h,
    MissingServiceNode_render anchor organization st
    = [RConnector; RMissingDropdown title (isRight anchor) items]
    /\ DismissItem h "Dismiss" ∈ items
    /\ MissingServiceNode_render anchor organization (runHandler h (w, st)).2 = []
    /\ MissingServiceNode_render anchor organization
         (MissingServiceNode_state (runHandler h (w, st)).1) = [].
Proof.
  intros Hvisible. unfold MissingServiceNode_render at 1. rewrite Hvisible.
  eexists _, _, _. split; [done|]. split; [apply list_elem_of_further, list_elem_of_here|].
  simpl. unfold MissingServiceNode_render, MissingServiceNode_state, readMissingServiceState.
  simpl. by rewrite lookup_insert_eq.
Qed.

Lemma renderNode_connectors st n r :
  renderNode st n = Ok r -> map isConnector r = connectorsOf st n.
Proof.
  destruct n as [key p| |anchor organization]; simpl.
  - destruct (EventNodeSelector p); simpl; [|done]. by intros [= <-].
  - by intros [= <-].
  - unfold MissingServiceNode_render. intros [= <-]. by destruct (hideMissing st).
Qed.

Lemma renderNodes_connectors st nodes rs :
  renderNodes st nodes = Ok rs -> map isConnector rs = flat_map (connectorsOf st) nodes.
Proof.
  revert rs. induction nodes as [|n nodes IH]; intros rs.
  - by intros [= <-].
  - rewrite renderNodes_cons.
    destruct (renderNode st n) as [r|] eqn:Hr; [|done].
    destruct (renderNodes st nodes) as [rs'|]; [|done].
    intros [= <-]. simpl. rewrite map_app.
    by rewrite (renderNode_connectors _ _ _ Hr), (IH rs').
Qed.

(** X11: whatever the trace and whether or not the placeholder is
    hidden, what [QuickTrace] puts on the page starts with a node, ends with
    a node, and has exactly one connector between any two neighbouring
    nodes. *)
Theorem nodes_and_connectors_alternate q parsed st :
  exists rendered,
    renderNodes st (buildNodes q parsed) = Ok rendered
    /\ alternates true (map isConnector rendered) = true.
Proof.
  destruct (renderNodes_total st (buildNodes q parsed)) as [rendered Hrendered].
  exists rendered. split; [done|].
  rewrite (renderNodes_connectors _ _ _ Hrendered), buildNodes_assembleTrace.
  unfold assembleTrace, leading, trailing, placeholder, bucketNode, bucketConnector.
  destruct (bucketIsEmpty q parsed KRoot), (bucketIsEmpty q parsed KAncestors),
    (bucketIsEmpty q parsed KParent), (bucketIsEmpty q parsed KChildren),
    (bucketIsEmpty q parsed KDescendants), (missingChild (current parsed));
    simpl; by destruct (hideMissing st).
Qed.

(** X12: the React keys [QuickTrace] gives its nodes and connectors
    are pairwise distinct. *)
Theorem react_keys_are_distinct q parsed : NoDup (omap reactKey (buildNodes q parsed)).
Proof.
  rewrite buildNodes_assembleTrace.
  unfold assembleTrace, leading, trailing, placeholder, bucketNode, bucketConnector.
  destruct (bucketIsEmpty q parsed KRoot), (bucketIsEmpty q parsed KAncestors),
    (bucketIsEmpty q parsed KParent), (bucketIsEmpty q parsed KChildren),
    (bucketIsEmpty q parsed KDescendants), (missingChild (current parsed));
    simpl; by apply (bool_decide_unpack _).
Qed.

(** Every [EventNodeSelector] among the nodes renders a bucket that
    is the current slot or holds an event. *)
Lemma buildNodes_selector_present q parsed key p :
  EventNodeSelectorElt key p ∈ buildNodes q parsed ->
  exists k, p = bucketProps q parsed k /\ (k = KCurrent \/ bucketIsEmpty q parsed k = false).
Proof.
  rewrite buildNodes_assembleTrace. unfold assembleTrace, leading, trailing, placeholder.
  rewrite !elem_of_app.
  intros Hin.
  repeat match goal with
         | H : _ \/ _ |- _ => destruct H as [H|H]
         | H : _ ∈ (if ?b then _ else _) |- _ => destruct b eqn:?
         | H : _ ∈ [] |- _ => by apply elem_of_nil in H
         | H : _ ∈ _ :: _ |- _ => apply elem_of_cons in H
         | H : EventNodeSelectorElt _ _ = bucketNode _ _ ?k |- _ =>
             exists k; split; [by inversion H | by auto]
         | H : EventNodeSelectorElt _ _ = _ |- _ => by inversion H
         end.
Qed.

(** X13: a bucket other than the current slot is never rendered as
    a bare label: [QuickTrace] renders it only when it holds an event,
    nothing is filtered out of it, and it shows as a link or a dropdown,
    white without errors and warning-styled with errors. *)
Theorem optional_buckets_are_never_bare_labels q parsed key p :
  EventNodeSelectorElt key p ∈ buildNodes q parsed ->
  nodeKey p <> KCurrent ->
  bucketEvents p = events p
  /\ 0 < length (events p)
  /\ exists v,
       EventNodeSelector p = Ok v
       /\ (forall type text, v <> EventNode type text)
       /\ viewType v = (if 0 <? length (bucketErrors p) then TagWarning else TagWhite).
Proof.
  intros Hin Hkey.
  destruct (buildNodes_selector_present q parsed key p Hin) as (k & -> & Hk).
  rewrite nodeKey_bucketProps in Hkey. destruct Hk as [->|Hk]; [done|].
  rewrite bucketIsEmpty_optional in Hk by done. apply Nat.eqb_neq in Hk.
  assert (Hce : currentEvent (bucketProps q parsed k) = None).
  { rewrite currentEvent_bucketProps. by destruct k. }
  assert (Hevents : bucketEvents (bucketProps q parsed k) = events (bucketProps q parsed k)).
  { unfold bucketEvents. by rewrite Hce. }
  split; [done|]. rewrite events_bucketProps. split; [lia|].
  destruct (EventNodeSelector_type_and_text (bucketProps q parsed k))
    as (v & Heq & Htype & _ & Hlabel).
  exists v. split; [done|].
  split.
  { apply Hlabel. unfold combinedCount. rewrite Hevents, events_bucketProps. lia. }
  rewrite Htype. unfold nodeType, escalates.
  rewrite Hce, orb_false_r, nodeKey_bucketProps.
  by destruct (0 <? length (bucketErrors (bucketProps q parsed k))), k.
Qed.

(** X14: [QuickTrace] never passes [numEvents], so a dropdown of a
    quick trace lists at most five error rows, then at most five event
    rows, then at most one aggregate item, eleven children in all, and
    opens to the right exactly when the widget is anchored right. *)
Theorem quick_trace_dropdowns_are_bounded q parsed key p title anchorRight children :
  EventNodeSelectorElt key p ∈ buildNodes q parsed ->
  EventNodeSelector p = Ok (DropdownLink title anchorRight children) ->
  exists errors events,
    errors = take 5 (bucketErrors p)
    /\ events = take 5 (bucketEvents p)
    /\ rowEvents children = map OfError errors ++ map OfTransaction events
    /\ length errors = 5 `min` length (bucketErrors p)
    /\ length events = 5 `min` length (bucketEvents p)
    /\ length errors <= 5
    /\ length events <= 5
    /\ length (overflowItems children) <= 1
    /\ length children = length errors + length events + length (overflowItems children)
    /\ length children <= 11
    /\ anchorRight = isRight (qp_anchor q).
Proof.
  intros Hin Heq.
  destruct (buildNodes_selector q parsed key p Hin) as [k ->].
  apply EventNodeSelector_dropdown_inv in Heq as (_ & _ & -> & ->).
  assert (Hcap : cap (bucketProps q parsed k) = 5).
  { unfold cap. by rewrite numEvents_bucketProps. }
  assert (Hextras :
    length (extrasItem (bucketProps q parsed k) 5
              (dropdownHoverText (nodeKey (bucketProps q parsed k))
                 (bucketErrors (bucketProps q parsed k))
                 (bucketEvents (bucketProps q parsed k)))
              (bucketEvents (bucketProps q parsed k))) <= 1).
  { unfold extrasItem. destruct (_ && _ && _); [|simpl; lia].
    destruct (extrasTarget _); simpl; lia. }
  eexists _, _. split; [done|]. split; [done|].
  rewrite rowEvents_dropdownChildren, overflowItems_dropdownChildren, Hcap.
  split; [done|]. rewrite !length_take.
  unfold dropdownChildren. rewrite Hcap, !length_app, !length_imap, !length_take.
  split; [done|]. split; [done|]. split; [lia|]. split; [lia|]. split; [done|].
  split; [lia|]. split; [lia | by destruct k].
Qed.

End AssemblerExtras.

(** ** Properties of the artifact row *)

Section ArtifactRowFacts.
Context `{ArtifactTypes}.

Lemma notIndividual_false type : notIndividual type = false <-> type = Some INDIVIDUAL.
Proof.
  destruct type as [type|]; simpl; [|done].
  rewrite negb_false_iff, bool_decide_eq_true. split; congruence.
Qed.

(** X15: each of the two buttons of an artifact row is enabled
    exactly when its tooltip names the action, and that is exactly when the
    viewer has the role (the access) and the artifact is an individual one;
    confirming the removal passes on the artifact's own id. *)
Theorem buttons_are_enabled_for_individual_artifacts props hasRole hasAccess :
  let view := SourceMapsArtifactRow props in
  (ab_disabled (rv_download view hasRole) = false
   <-> hasRole = true /\ art_type (artifact props) = Some INDIVIDUAL)
  /\ (ab_title (rv_download view hasRole) = Locale.t "Download Artifact" []
      <-> ab_disabled (rv_download view hasRole) = false)
  /\ (ab_disabled (rv_delete view hasAccess) = false
      <-> hasAccess = true /\ art_type (artifact props) = Some INDIVIDUAL)
  /\ (ab_title (rv_delete view hasAccess) = Locale.t "Remove Artifact" []
      <-> ab_disabled (rv_delete view hasAccess) = false)
  /\ rv_onConfirm view = art_id (artifact props).
Proof.
  simpl. rewrite <- !notIndividual_false.
  destruct hasRole, hasAccess, (notIndividual (art_type (artifact props))); simpl;
    split_and!; try done; split; (done || by intros [? ?]).
Qed.

(** X16: the row never shows an empty name: an empty name is replaced
    by the "(empty)" placeholder. The distribution tag reads "none" exactly
    when the artifact has no distribution; it is typed "info" exactly when
    the distribution is a non-empty string and carries the "No distribution
    set" tooltip otherwise, so an empty distribution shows as an empty tag
    under that tooltip. *)
Theorem name_and_distribution_fallbacks props :
  let view := SourceMapsArtifactRow props in
  (rv_name view = NameEmpty <-> art_name (artifact props) = "")
  /\ (forall name, rv_name view = NameGiven name ->
                   name = art_name (artifact props) /\ name <> "")
  /\ (dt_text (rv_dist view) = DistNone <-> art_dist (artifact props) = None)
  /\ (dt_type (rv_dist view) = Some "info"
      <-> exists dist, art_dist (artifact props) = Some dist /\ dist <> "")
  /\ (dt_tooltipText (rv_dist view) = Some (Locale.t "No distribution set" [])
      <-> dt_type (rv_dist view) = None)
  /\ (art_dist (artifact props) = Some "" ->
      dt_text (rv_dist view) = DistGiven ""
      /\ dt_tooltipText (rv_dist view) = Some (Locale.t "No distribution set" [])).
Proof.
  simpl.
  destruct (String.eqb_spec (art_name (artifact props)) "") as [Hname|Hname].
  all: destruct (art_dist (artifact props)) as [dist|]; simpl.
  all: try destruct (String.eqb_spec dist "") as [Hdist|Hdist]; simpl.
  all: repeat split; try done; try congruence.
  all: try (intros (d & [= <-] & Hd); done).
  all: try (intros _; by exists dist).
  all: try (intros name [= <-]; done).
  all: try (intros [= ->]; done).
Qed.

End ArtifactRowFacts.

(** ** Further properties: the current slot, single links and the flag *)

Section MoreExtras.
Context `{Collaborators}.

Lemma filter_nil_Forall {A} (f : A -> bool) (l : list A) :
  List.filter f l = [] <-> Forall (fun x => f x = false) l.
Proof.
  induction l as [|x l IH]; simpl; [by split; [constructor|]|].
  destruct (f x) eqn:Hx.
  - split; [done|]. intros Hall. inversion Hall; congruence.
  - rewrite IH. split; [by constructor | by inversion 1].
Qed.

(** X17: the current slot lists its event unless that event is the
    viewed event itself, and it is a bare label exactly when it is the
    viewed event and each of its errors is the viewed event too. *)
Theorem current_slot_is_bare_only_for_the_viewed_event q parsed :
  let p := bucketProps q parsed KCurrent in
  (bucketEvents p = [] <-> qt_event_id (current parsed) = ev_id (qp_event q))
  /\ (qt_event_id (current parsed) <> ev_id (qp_event q) ->
      bucketEvents p = [current parsed])
  /\ (combinedCount p = 0
      <-> qt_event_id (current parsed) = ev_id (qp_event q)
          /\ Forall (fun error => te_event_id error = ev_id (qp_event q))
                (default [] (qt_errors (current parsed))))
  /\ exists v,
       EventNodeSelector p = Ok v
       /\ (combinedCount p = 0 <-> exists type text, v = EventNode type text).
Proof.
  cbv zeta.
  assert (Hevents :
    bucketEvents (bucketProps q parsed KCurrent)
    = if String.eqb (qt_event_id (current parsed)) (ev_id (qp_event q))
      then [] else [current parsed]).
  { unfold bucketEvents. simpl. by destruct (String.eqb _ _). }
  assert (Herrors :
    bucketErrors (bucketProps q parsed KCurrent) = []
    <-> Forall (fun error => te_event_id error = ev_id (qp_event q))
          (default [] (qt_errors (current parsed)))).
  { unfold bucketErrors. rewrite hoistErrors_flat_map. simpl.
    rewrite app_nil_r. unfold hoistedOf.
    assert (Hkeep : forall error,
              keepError (Some (qp_event q)) error = false
              <-> te_event_id error = ev_id (qp_event q)).
    { intros error. simpl. rewrite negb_false_iff, String.eqb_eq. split; congruence. }
    split.
    - intros Hmap. apply map_eq_nil, filter_nil_Forall in Hmap.
      eapply Forall_impl; [exact Hmap|]. intros error. apply Hkeep.
    - intros Hall.
      assert (Hnone : List.filter (keepError (Some (qp_event q)))
                        (default [] (qt_errors (current parsed))) = []).
      { apply filter_nil_Forall. eapply Forall_impl; [exact Hall|].
        intros error. apply Hkeep. }
      by rewrite Hnone. }
  split; [|split; [|split]].
  - rewrite Hevents.
    by destruct (String.eqb_spec (qt_event_id (current parsed)) (ev_id (qp_event q))).
  - intros Hne. rewrite Hevents.
    by destruct (String.eqb_spec (qt_event_id (current parsed)) (ev_id (qp_event q))).
  - rewrite <- Herrors. unfold combinedCount. rewrite Hevents.
    destruct (String.eqb_spec (qt_event_id (current parsed)) (ev_id (qp_event q)));
      destruct (bucketErrors (bucketProps q parsed KCurrent)); simpl;
      split; try done; try lia; by intros [? ?].
  - destruct (EventNodeSelector_type_and_text (bucketProps q parsed KCurrent))
      as (v & Heq & _ & _ & Hlabel).
    exists v. split; [done|]. split.
    + intros H0. rewrite (EventNodeSelector_empty _ H0) in Heq.
      injection Heq as <-. by eexists _, _.
    + intros (type & text & ->).
      destruct (decide (combinedCount (bucketProps q parsed KCurrent) = 0)); [done|].
      by destruct (Hlabel n type text).
Qed.

(** X18: a single link leads to the one item of its bucket through
    its [to]; clicking it records one "quick_trace.node.clicked" event under
    the node's key and pushes nothing onto the history. *)
Theorem selecting_a_single_link_records_the_click p :
  combinedCount p = 1 ->
  exists props h item,
    EventNodeSelector p = Ok (StyledEventNode props)
    /\ map OfError (bucketErrors p) ++ map OfTransaction (bucketEvents p) = [item]
    /\ en_to props = Some (itemTarget p item)
    /\ en_onClick props = Some h
    /\ forall c,
         analytics (runHandler h c).1
         = analytics c.1 ++ [nodeClicked (nodeKey p) (organization p)]
         /\ browserHistory (runHandler h c).1 = browserHistory c.1
         /\ localStorage (runHandler h c).1 = localStorage c.1
         /\ (runHandler h c).2 = c.2.
Proof.
  intros H1.
  destruct (combinedCount_one p H1) as [(error & He & Hv)|(event & He & Hv)].
  - eexists _, _, (OfError error).
    split; [by apply EventNodeSelector_single_error|]. rewrite He, Hv. done.
  - eexists _, _, (OfTransaction event).
    split; [by apply EventNodeSelector_single_transaction|]. rewrite He, Hv. done.
Qed.

(** X19: the reducer works event by event: the errors and the events
    of two buckets put end to end are those of the first followed by those
    of the second, and filtering out the current event a second time
    changes nothing. *)
Theorem buckets_compose currentEvent (events1 events2 : list QuickTraceEvent) :
  hoistErrors currentEvent (events1 ++ events2)
  = hoistErrors currentEvent events1 ++ hoistErrors currentEvent events2
  /\ filterCurrent currentEvent (events1 ++ events2)
     = filterCurrent currentEvent events1 ++ filterCurrent currentEvent events2
  /\ filterCurrent currentEvent (filterCurrent currentEvent events1)
     = filterCurrent currentEvent events1
  /\ hoistErrors currentEvent (filterCurrent currentEvent events1)
     `sublist_of` hoistErrors currentEvent events1.
Proof.
  split; [by rewrite !hoistErrors_flat_map, flat_map_app|].
  split; [destruct currentEvent; simpl; [apply List.filter_app | done]|].
  split.
  - destruct currentEvent as [ce|]; simpl; [|done].
    induction events1 as [|e events1 IH]; simpl; [done|].
    destruct (negb _) eqn:Hkeep; simpl; [|done]. by rewrite Hkeep, IH.
  - rewrite !hoistErrors_flat_map.
    destruct currentEvent as [ce|]; simpl; [|done].
    induction events1 as [|e events1 IH]; simpl; [done|].
    destruct (negb _); simpl.
    + by apply sublist_app.
    + by apply sublist_inserts_l.
Qed.

(** X20: only the one key decides the placeholder: writing any other
    key of local storage leaves a new instance as it would have been;
    removing the key, or storing anything but "1" under it, after a
    dismissal makes a new instance visible again. *)
Theorem only_the_flag_decides_visibility organization c :
  (forall k value, k <> HIDE_MISSING_SERVICE_KEY ->
     MissingServiceNode_state (withStorage c.1 (<[k := value]> (localStorage c.1)))
     = MissingServiceNode_state c.1)
  /\ (forall k, k <> HIDE_MISSING_SERVICE_KEY ->
        MissingServiceNode_state (withStorage c.1 (delete k (localStorage c.1)))
        = MissingServiceNode_state c.1)
  /\ hideMissing
       (MissingServiceNode_state
          (withStorage (dismissMissingService organization c).1
             (delete HIDE_MISSING_SERVICE_KEY
                (localStorage (dismissMissingService organization c).1))))
     = false
  /\ (forall value, value <> "1" ->
        hideMissing
          (MissingServiceNode_state
             (withStorage (dismissMissingService organization c).1
                (<[HIDE_MISSING_SERVICE_KEY := value]>
                   (localStorage (dismissMissingService organization c).1))))
        = false).
Proof.
  unfold MissingServiceNode_state, readMissingServiceState. simpl.
  split; [intros k value Hk; by rewrite lookup_insert_ne|].
  split; [intros k Hk; by rewrite lookup_delete_ne|].
  split; [by rewrite lookup_delete_eq|].
  intros value Hvalue. rewrite lookup_insert_eq. by apply String.eqb_neq.
Qed.

End MoreExtras.

(** ** The properties on the sample inputs *)

#[local] Existing Instance sampleCollaborators.

Lemma dropdown_lists_errors_then_events_witness :
  1 < combinedCount Sample.mixedBucket
  /\ exists title anchorRight children,
       EventNodeSelector Sample.mixedBucket = Ok (DropdownLink title anchorRight children)
       /\ rowEvents children
          = [OfError (withTransaction (Sample.err "x1") "/api/b1");
             OfError (withTransaction (Sample.err "x2") "/api/b1");
             OfError (withTransaction (Sample.err "x3") "/api/b2");
             OfTransaction (Sample.txn "b1" (Some [Sample.err "x1"; Sample.err "x2"]));
             OfTransaction (Sample.txn "b2" (Some [Sample.err "x3"]))]
       /\ overflowItems children = [].
Proof.
  assert (Hn : 1 < combinedCount Sample.mixedBucket) by (vm_compute; lia).
  split; [exact Hn|].
  destruct (dropdown_lists_errors_then_events Sample.mixedBucket Hn)
    as (title & anchorRight & children & Heq & Hrows & _ & _ & _ & _ & _ & _ & Hthree).
  exists title, anchorRight, children.
  split; [exact Heq|]. split; [exact Hrows|].
  exact (proj2 (Hthree eq_refl eq_refl eq_refl)).
Defined.

Lemma empty_bucket_is_label_only_witness :
  combinedCount Sample.currentTransaction = 0
  /\ EventNodeSelector Sample.currentTransaction
     = Ok (EventNode TagBlack (PlainText (Locale.t "Bucket" []))).
Proof.
  split; [reflexivity|].
  exact (empty_bucket_is_label_only Sample.currentTransaction eq_refl).
Defined.

(** The current slot of an error event whose identifier the bucket's
    only event shares: no item is left, and the label is error-styled
    behind the fire icon, not black. *)
Lemma empty_current_slot_of_error_event :
  combinedCount Sample.currentError = 0
  /\ nodeKey Sample.currentError = KCurrent
  /\ EventNodeSelector Sample.currentError
     = Ok (EventNode TagError (ErrorNodeContent (Locale.t "Bucket" [])))
  /\ ~ (exists text, EventNodeSelector Sample.currentError = Ok (EventNode TagBlack text)).
Proof.
  repeat split. intros [text Heq]. vm_compute in Heq. discriminate Heq.
Qed.

Lemma single_item_is_single_link_witness :
  combinedCount Sample.parentOnly = 1
  /\ exists event,
       bucketEvents Sample.parentOnly = [event]
       /\ EventNodeSelector Sample.parentOnly
          = Ok (singleTransactionLink Sample.parentOnly event).
Proof.
  split; [reflexivity|].
  destruct (single_item_is_single_link Sample.parentOnly eq_refl)
    as [(error & Herrors & _)|(event & Herrors & Hevents & Heq)].
  - discriminate Herrors.
  - exists event. split; [exact Hevents|].
    rewrite Heq. unfold singleTransactionLink. rewrite Herrors. reflexivity.
Defined.

Lemma errors_of_current_copy_are_hoisted_witness :
  withTransaction (Sample.err "x1") "/api/cur" ∈ bucketErrors Sample.withCopy
  /\ (Sample.copyOfCurrent ∉ bucketEvents Sample.withCopy)
  /\ exists v,
       EventNodeSelector Sample.withCopy = Ok v
       /\ showsError Sample.withCopy v (withTransaction (Sample.err "x1") "/api/cur").
Proof.
  assert (Hne : te_event_id (Sample.err "x1") <> ev_id (Sample.transactionEvent "cur"))
    by discriminate.
  destruct (errors_of_current_copy_are_hoisted Sample.withCopy
              (Sample.transactionEvent "cur") Sample.copyOfCurrent
              [Sample.err "x1"; Sample.err "cur"] (Sample.err "x1")
              eq_refl (list_elem_of_here _ _) eq_refl eq_refl (list_elem_of_here _ _) Hne)
    as (Hin & Hgone & v & Heq & _ & Hshown).
  split; [exact Hin|]. split; [exact Hgone|].
  exists v. split; [exact Heq|].
  apply (Hshown 0); [reflexivity | vm_compute; lia].
Defined.

Lemma quick_trace_node_order_witness :
  parseQuickTrace (qp_quickTrace Sample.plainQuickTrace) (qp_event Sample.plainQuickTrace)
  = Ok Sample.plainTrace
  /\ QuickTrace Sample.plainQuickTrace
     = Ok (QuickTraceContainer (assembleTrace Sample.plainQuickTrace Sample.plainTrace))
  /\ map nodeLabel (assembleTrace Sample.plainQuickTrace Sample.plainTrace)
     = ["root-node"; "root-connector"; "parent-node"; "parent-connector"; "current-node";
        "children-connector"; "children-node"].
Proof.
  split; [reflexivity|].
  destruct (quick_trace_node_order Sample.plainQuickTrace Sample.plainTrace eq_refl)
    as [Hview Horder].
  split; [exact Hview|].
  apply Horder; [reflexivity | reflexivity | discriminate..].
Defined.

(** No ancestors, no descendants, a root, a parent and children, and a
    current event flagged as missing a service: eight nodes, the
    placeholder element among them, which a widget that was never dismissed
    renders as one more connector and its dropdown. *)
Lemma flagged_trace_has_placeholder :
  bucketOf Sample.flaggedTrace KAncestors = []
  /\ bucketOf Sample.flaggedTrace KDescendants = []
  /\ length (bucketOf Sample.flaggedTrace KRoot) = 1
  /\ length (bucketOf Sample.flaggedTrace KParent) = 1
  /\ length (bucketOf Sample.flaggedTrace KChildren) = 2
  /\ (exists nodes,
        QuickTrace Sample.flaggedQuickTrace = Ok (QuickTraceContainer nodes)
        /\ map nodeLabel nodes
           = ["root-node"; "root-connector"; "parent-node"; "parent-connector";
              "current-node"; "missing-service"; "children-connector"; "children-node"]
        /\ exists rendered,
             renderNodes (MissingServiceNode_state Sample.emptyWorld) nodes = Ok rendered
             /\ length rendered = 9
             /\ List.filter isMissingDropdown rendered
                = [RMissingDropdown (EventNode TagWhite (RawText "???")) false
                     [ConnectLink
                        "https://docs.sentry.io/platforms/javascript/performance/connect-services/"
                        "Connect to a service";
                      DismissItem (OnDismissMissingService Sample.org) "Dismiss"]])
  /\ ~ (exists nodes,
          QuickTrace Sample.flaggedQuickTrace = Ok (QuickTraceContainer nodes)
          /\ map nodeLabel nodes
             = ["root-node"; "root-connector"; "parent-node"; "parent-connector";
                "current-node"; "children-connector"; "children-node"]).
Proof.
  do 5 (split; [reflexivity|]).
  split.
  - eexists. split; [reflexivity|]. split; [reflexivity|].
    eexists. split; [vm_compute; reflexivity|]. split; reflexivity.
  - intros (nodes & Hview & Hlabels). vm_compute in Hview.
    injection Hview as <-. vm_compute in Hlabels. discriminate Hlabels.
Qed.

Lemma parse_failure_is_recovered_witness :
  QuickTrace Sample.brokenQuickTrace = Ok (Fragment "—")
  /\ exists nodes,
       QuickTrace Sample.plainQuickTrace = Ok (QuickTraceContainer nodes)
       /\ exists rendered,
            renderNodes (MissingServiceNode_state Sample.emptyWorld) nodes = Ok rendered.
Proof.
  split.
  - exact (proj1 (parse_failure_is_recovered Sample.brokenQuickTrace)
             (ParseError "Current trace is empty") eq_refl).
  - destruct (proj1 (proj2 (parse_failure_is_recovered Sample.plainQuickTrace))
                Sample.plainTrace eq_refl) as (nodes & Hview & Hrender).
    exists nodes. split; [exact Hview|].
    exact (Hrender (MissingServiceNode_state Sample.emptyWorld)).
Defined.

Lemma dismissal_is_permanent_witness :
  hideMissing (MissingServiceNode_state Sample.emptyWorld) = false
  /\ MissingServiceNode_render AnchorLeft Sample.org
       (MissingServiceNode_state
          (dismissMissingService Sample.org
             (Sample.emptyWorld, MissingServiceNode_state Sample.emptyWorld)).1)
     = [].
Proof.
  split; [reflexivity|].
  destruct (dismissal_is_permanent Sample.emptyWorld) as (_ & _ & _ & Hafter).
  destruct (Hafter Sample.org
              (Sample.emptyWorld, MissingServiceNode_state Sample.emptyWorld)
              (dismissMissingService Sample.org
                 (Sample.emptyWorld, MissingServiceNode_state Sample.emptyWorld))
              (reachable_init Sample.emptyWorld) (rtc_refl _ _))
    as (_ & _ & Hrender & _).
  exact (proj2 (Hrender AnchorLeft Sample.org)).
Defined.

Lemma overflow_needs_target_and_excess_events_witness :
  1 < combinedCount Sample.rootWithErrors
  /\ length (bucketErrors Sample.rootWithErrors) = 7
  /\ exists title anchorRight children,
       EventNodeSelector Sample.rootWithErrors = Ok (DropdownLink title anchorRight children)
       /\ overflowItems children = []
       /\ rowEvents children
          = map OfError (take 5 (bucketErrors Sample.rootWithErrors))
            ++ map OfTransaction (bucketEvents Sample.rootWithErrors).
Proof.
  assert (Hn : 1 < combinedCount Sample.rootWithErrors) by (vm_compute; lia).
  split; [exact Hn|]. split; [reflexivity|].
  destruct (overflow_needs_target_and_excess_events Sample.rootWithErrors Hn)
    as (title & anchorRight & children & Heq & _ & _ & Hdropped & _).
  exists title, anchorRight, children. split; [exact Heq|].
  assert (Herrs : cap Sample.rootWithErrors < length (bucketErrors Sample.rootWithErrors))
    by (vm_compute; lia).
  assert (Hevs : length (bucketEvents Sample.rootWithErrors) <= cap Sample.rootWithErrors)
    by (vm_compute; lia).
  destruct (Hdropped Herrs Hevs) as (Hnone & Hrows & _).
  split; [exact Hnone | exact Hrows].
Defined.

(** *** The further properties on the sample inputs *)

Lemma only_the_first_row_is_marked_first_witness :
  1 < combinedCount Sample.mixedBucket
  /\ exists title anchorRight children,
       EventNodeSelector Sample.mixedBucket = Ok (DropdownLink title anchorRight children)
       /\ length (rowProps children) = 5
       /\ forall i r, rowProps children !! i = Some r -> dn_first r = Nat.eqb i 0.
Proof.
  assert (Hn : 1 < combinedCount Sample.mixedBucket) by (vm_compute; lia).
  split; [exact Hn|].
  destruct (only_the_first_row_is_marked_first Sample.mixedBucket Hn)
    as (title & anchorRight & children & Heq & Hfirst).
  exists title, anchorRight, children. split; [exact Heq|]. split; [|exact Hfirst].
  apply EventNodeSelector_dropdown_inv in Heq as (_ & _ & _ & ->). reflexivity.
Defined.

Lemma selecting_a_row_leads_to_its_event_witness :
  1 < combinedCount Sample.mixedBucket
  /\ exists title anchorRight children,
       EventNodeSelector Sample.mixedBucket = Ok (DropdownLink title anchorRight children)
       /\ forall r, r ∈ rowProps children ->
            exists h,
              dn_onSelect r = Some h
              /\ browserHistory (runHandler h (Sample.emptyWorld, {| hideMissing := false |})).1
                 = [itemTarget Sample.mixedBucket (dn_event r)].
Proof.
  assert (Hn : 1 < combinedCount Sample.mixedBucket) by (vm_compute; lia).
  split; [exact Hn|].
  destruct (selecting_a_row_leads_to_its_event Sample.mixedBucket Hn)
    as (title & anchorRight & children & Heq & Hrows).
  exists title, anchorRight, children. split; [exact Heq|].
  intros r Hr. destruct (Hrows r Hr) as (h & Hsel & Hrun).
  exists h. split; [exact Hsel|].
  exact (proj1 (Hrun (Sample.emptyWorld, {| hideMissing := false |}))).
Defined.

Lemma selecting_the_aggregate_item_leads_to_all_witness :
  1 < combinedCount Sample.sevenWithTarget
  /\ exists title anchorRight children,
       EventNodeSelector Sample.sevenWithTarget = Ok (DropdownLink title anchorRight children)
       /\ overflowItems children <> []
       /\ forall h content, DropdownItem h content ∈ children ->
            browserHistory (runHandler h (Sample.emptyWorld, {| hideMissing := false |})).1
            = [Sample.allTarget].
Proof.
  assert (Hn : 1 < combinedCount Sample.sevenWithTarget) by (vm_compute; lia).
  split; [exact Hn|].
  destruct (selecting_the_aggregate_item_leads_to_all Sample.sevenWithTarget Hn)
    as (title & anchorRight & children & Heq & Hitem).
  exists title, anchorRight, children. split; [exact Heq|]. split.
  - apply EventNodeSelector_dropdown_inv in Heq as (_ & _ & _ & ->). discriminate.
  - intros h content Hin. destruct (Hitem h content Hin) as (target & Htarget & _ & Hrun).
    injection Htarget as <-.
    exact (proj1 (Hrun (Sample.emptyWorld, {| hideMissing := false |}))).
Defined.

Lemma rows_are_counted_by_the_cap_witness :
  1 < combinedCount Sample.rootWithErrors
  /\ exists title anchorRight children,
       EventNodeSelector Sample.rootWithErrors = Ok (DropdownLink title anchorRight children)
       /\ length (rowEvents children) = 6.
Proof.
  assert (Hn : 1 < combinedCount Sample.rootWithErrors) by (vm_compute; lia).
  split; [exact Hn|].
  destruct (rows_are_counted_by_the_cap Sample.rootWithErrors Hn)
    as (title & anchorRight & children & Heq & Hcount & _).
  exists title, anchorRight, children. split; [exact Heq | exact Hcount].
Defined.

Lemma the_dismiss_item_hides_the_placeholder_witness :
  hideMissing (MissingServiceNode_state Sample.emptyWorld) = false
  /\ exists title items h,
       MissingServiceNode_render AnchorRight Sample.org
         (MissingServiceNode_state Sample.emptyWorld)
       = [RConnector; RMissingDropdown title true items]
       /\ DismissItem h "Dismiss" ∈ items
       /\ MissingServiceNode_render AnchorRight Sample.org
            (MissingServiceNode_state
               (runHandler h
                  (Sample.emptyWorld, MissingServiceNode_state Sample.emptyWorld)).1)
          = [].
Proof.
  split; [reflexivity|].
  destruct (the_dismiss_item_hides_the_placeholder AnchorRight Sample.org Sample.emptyWorld
              (MissingServiceNode_state Sample.emptyWorld) eq_refl)
    as (title & items & h & Hrender & Hitem & _ & Hnew).
  exists title, items, h. split; [exact Hrender|]. split; [exact Hitem | exact Hnew].
Defined.

Lemma optional_buckets_are_never_bare_labels_witness :
  EventNodeSelectorElt "children-node"
    (bucketProps Sample.plainQuickTrace Sample.plainTrace KChildren)
  ∈ buildNodes Sample.plainQuickTrace Sample.plainTrace
  /\ exists v,
       EventNodeSelector (bucketProps Sample.plainQuickTrace Sample.plainTrace KChildren)
       = Ok v
       /\ viewType v = TagWhite.
Proof.
  assert (Hin : EventNodeSelectorElt "children-node"
                  (bucketProps Sample.plainQuickTrace Sample.plainTrace KChildren)
                ∈ buildNodes Sample.plainQuickTrace Sample.plainTrace).
  { apply list_elem_of_In. vm_compute. repeat (first [left; reflexivity | right]). }
  split; [exact Hin|].
  assert (Hkey : nodeKey (bucketProps Sample.plainQuickTrace Sample.plainTrace KChildren)
                 <> KCurrent) by discriminate.
  destruct (optional_buckets_are_never_bare_labels Sample.plainQuickTrace Sample.plainTrace
              "children-node" _ Hin Hkey) as (_ & _ & v & Heq & _ & Htype).
  exists v. split; [exact Heq | exact Htype].
Defined.

Lemma selecting_a_single_link_records_the_click_witness :
  combinedCount Sample.parentOnly = 1
  /\ exists props h,
       EventNodeSelector Sample.parentOnly = Ok (StyledEventNode props)
       /\ en_to props = Some (itemTarget Sample.parentOnly (OfTransaction (Sample.txn "p" None)))
       /\ en_onClick props = Some h
       /\ browserHistory (runHandler h (Sample.emptyWorld, {| hideMissing := false |})).1 = [].
Proof.
  split; [reflexivity|].
  destruct (selecting_a_single_link_records_the_click Sample.parentOnly eq_refl)
    as (props & h & item & Heq & Hitem & Hto & Hclick & Hrun).
  exists props, h. split; [exact Heq|].
  injection Hitem as <-. split; [exact Hto|]. split; [exact Hclick|].
  exact (proj1 (proj2 (Hrun (Sample.emptyWorld, {| hideMissing := false |})))).
Defined.

(** *** The properties on sample traces *)




(** The current slot of a viewed transaction that carries six errors:
    the sixth is hoisted, the dropdown has five rows, and none of them
    stands for it. *)
Lemma sixth_error_is_hoisted_but_not_shown :
  exists p title anchorRight children,
    EventNodeSelectorElt "current-node" p
    ∈ buildNodes (Traces.view Traces.sixErrors) Traces.sixErrors
    /\ currentEvent p = Some (Sample.transactionEvent "cur")
    /\ current Traces.sixErrors ∈ events p
    /\ qt_event_id (current Traces.sixErrors) = ev_id (Sample.transactionEvent "cur")
    /\ Sample.err "x6" ∈ default [] (qt_errors (current Traces.sixErrors))
    /\ withTransaction (Sample.err "x6") "/api/cur" ∈ bucketErrors p
    /\ EventNodeSelector p = Ok (DropdownLink title anchorRight children)
    /\ length (rowEvents children) = 5
    /\ (OfError (withTransaction (Sample.err "x6") "/api/cur") ∉ rowEvents children).
Proof.
  exists (bucketProps (Traces.view Traces.sixErrors) Traces.sixErrors KCurrent),
    (dropdownTitle (bucketProps (Traces.view Traces.sixErrors) Traces.sixErrors KCurrent)),
    false,
    (dropdownChildren (bucketProps (Traces.view Traces.sixErrors) Traces.sixErrors KCurrent)).
  split.
  { apply list_elem_of_In. vm_compute. repeat (first [left; reflexivity | right]). }
  split; [reflexivity|]. split; [apply list_elem_of_here|]. split; [reflexivity|].
  split.
  { apply list_elem_of_In. vm_compute. repeat (first [left; reflexivity | right]). }
  split.
  { apply list_elem_of_In. vm_compute. repeat (first [left; reflexivity | right]). }
  split; [reflexivity|]. split; [reflexivity|].
  intros Hshown. apply list_elem_of_In in Hshown. vm_compute in Hshown.
  repeat (destruct Hshown as [Hshown|Hshown]; [discriminate Hshown|]).
  exact Hshown.
Qed.

Lemma quick_trace_dropdowns_are_bounded_witness :
  EventNodeSelectorElt "children-node"
    (bucketProps (Traces.view Traces.crowded) Traces.crowded KChildren)
  ∈ buildNodes (Traces.view Traces.crowded) Traces.crowded
  /\ exists errors events,
       rowEvents (dropdownChildren
                    (bucketProps (Traces.view Traces.crowded) Traces.crowded KChildren))
       = map OfError errors ++ map OfTransaction events
       /\ length errors = 5
       /\ length events = 5
       /\ length (dropdownChildren
                    (bucketProps (Traces.view Traces.crowded) Traces.crowded KChildren))
          = 11.
Proof.
  assert (Hin : EventNodeSelectorElt "children-node"
                  (bucketProps (Traces.view Traces.crowded) Traces.crowded KChildren)
                ∈ buildNodes (Traces.view Traces.crowded) Traces.crowded).
  { apply list_elem_of_In. vm_compute. repeat (first [left; reflexivity | right]). }
  split; [exact Hin|].
  destruct (quick_trace_dropdowns_are_bounded (Traces.view Traces.crowded) Traces.crowded
              "children-node" _
              (dropdownTitle
                 (bucketProps (Traces.view Traces.crowded) Traces.crowded KChildren))
              false
              (dropdownChildren
                 (bucketProps (Traces.view Traces.crowded) Traces.crowded KChildren))
              Hin eq_refl)
    as (errors & events & _ & _ & Hrows & Herrors & Hevents & _ & _ & _ & _ & _ & _).
  exists errors, events. split; [exact Hrows|].
  split; [exact Herrors|]. split; [exact Hevents | reflexivity].
Defined.
